(** * Lab Record Generator API: a shallow embedding of [main.py]

    The development follows the source top to bottom: the string helpers the
    handlers rely on (decimal printing, [zfill], [split], [lower],
    [os.path.join]), the pydantic request models, the code generator
    [create_qr_code], the part of python-docx the handlers drive, the two
    POST handlers [upload_logo] and [generate_docx], and then the properties
    of the produced document and of the file system the handlers leave
    behind. *)

From Stdlib Require Import ZArith Ascii.
From stdpp Require Import gmap strings list fin_maps finite.


(* ===================================================================== *)
(** ** Python string primitives                                           *)
(* ===================================================================== *)

Module PyStr.

(** The character of a decimal digit, ["0"] .. ["9"]. *)
Definition digit_char (d : nat) : ascii := Ascii.ascii_of_nat (48 + d).

(** [str(n)] for a non-negative [int]: the decimal numeral without leading
    zeros. The recursion is on the quotient by ten; [fuel] bounds it. *)
Fixpoint str_fuel (fuel n : nat) : string :=
  match fuel with
  | 0 => ""
  | S fuel' =>
      if n <? 10 then String (digit_char n) ""
      else str_fuel fuel' (n / 10) +:+ String (digit_char (n mod 10)) ""
  end.

Definition str (n : nat) : string := str_fuel (S n) n.

Fixpoint zeros (k : nat) : string :=
  match k with 0 => "" | S k' => String "0" (zeros k') end.

(** [s.zfill(width)]: left-pad with ["0"] up to [width]; a leading sign
    stays in front of the padding; a string already that long is returned
    unchanged. *)
Definition zfill (width : nat) (s : string) : string :=
  let fill := width - String.length s in
  match s with
  | String c rest =>
      if bool_decide (c = "+"%char ∨ c = "-"%char)
      then String c (zeros fill +:+ rest)
      else zeros fill +:+ s
  | "" => zeros fill
  end.

(** Reading a decimal numeral back ([int(s)] on a string of digits). *)
Fixpoint int_acc (acc : nat) (s : string) : option nat :=
  match s with
  | "" => Some acc
  | String c rest =>
      match Ascii.is_nat c with
      | Some d => int_acc (10 * acc + d) rest
      | None => None
      end
  end.

Definition int (s : string) : option nat :=
  match s with "" => None | _ => int_acc 0 s end.

(** [s.startswith(p)]. *)
Fixpoint startswith (p s : string) : bool :=
  match p, s with
  | "", _ => true
  | String a p', String b s' => bool_decide (a = b) && startswith p' s'
  | String _ _, "" => false
  end.

(** [s.split(sep)[-1]] for a one-character separator: the part after the
    last occurrence of [sep], or all of [s] when [sep] does not occur.
    [cur] is the piece being read. *)
Fixpoint split_last_go (sep : ascii) (cur : string) (s : string) : string :=
  match s with
  | "" => String.rev cur
  | String c rest =>
      if bool_decide (c = sep) then split_last_go sep "" rest
      else split_last_go sep (String c cur) rest
  end.

Definition split_last (sep : ascii) (s : string) : string :=
  split_last_go sep "" s.

(** [s.lower()] on the ASCII letters. Python also maps non-ASCII letters;
    none of them is mapped to a string made of the letters of [png], [jpg]
    or [jpeg], the only strings the result is compared with. *)
Definition lower_char (c : ascii) : ascii :=
  let n := Ascii.nat_of_ascii c in
  if (65 <=? n) && (n <=? 90) then Ascii.ascii_of_nat (n + 32) else c.

Fixpoint lower (s : string) : string :=
  match s with
  | "" => ""
  | String c rest => String (lower_char c) (lower rest)
  end.

(** [s.endswith("/")]. *)
Fixpoint ends_with_slash (s : string) : bool :=
  match s with
  | "" => false
  | String c "" => bool_decide (c = "/"%char)
  | String _ rest => ends_with_slash rest
  end.

(** [os.path.join(a, b)] on POSIX: an absolute [b] discards [a]; otherwise
    the two are joined by exactly one separator. *)
Definition path_join (a b : string) : string :=
  if startswith "/" b then b
  else if bool_decide (a = "") || ends_with_slash a then a +:+ b
  else a +:+ "/" +:+ b.

(** The last character of a string, if any. *)
Fixpoint last_char (s : string) : option ascii :=
  match s with
  | "" => None
  | String c "" => Some c
  | String _ rest => last_char rest
  end.

End PyStr.

(* ===================================================================== *)
(** ** Request models                                                     *)
(* ===================================================================== *)

(** [class Experiment(BaseModel)] and [class RecordData(BaseModel)]. *)
Record Experiment := {
  title : string;
  date : string;
  github : string
}.

Record RecordData := {
  course_title : string;
  student_name : string;
  register_number : string;
  experiments : list Experiment
}.

(** A request body whose fields are each missing or a string (the
    experiments, a list of such objects); bodies with a field that is
    [null] or of another JSON type, which pydantic refuses as well, are not
    among the bodies described here. Validation is what the two models
    declare: [title] and [github] are required, [date] defaults to the
    empty string, and the three strings and the list of [RecordData] are
    required. A field that is present is taken as it is: no model declares
    a constraint on the content of a string. *)
Record ExperimentBody := {
  body_title : option string;
  body_date : option string;
  body_github : option string
}.

Record RecordBody := {
  body_course_title : option string;
  body_student_name : option string;
  body_register_number : option string;
  body_experiments : option (list ExperimentBody)
}.

Definition validate_Experiment (b : ExperimentBody) : option Experiment :=
  t ← body_title b;
  g ← body_github b;
  Some {| title := t; date := default "" (body_date b); github := g |}.

Definition validate_RecordData (b : RecordBody) : option RecordData :=
  c ← body_course_title b;
  s ← body_student_name b;
  r ← body_register_number b;
  bs ← body_experiments b;
  es ← mapM validate_Experiment bs;
  Some {| course_title := c; student_name := s; register_number := r;
          experiments := es |}.

(* ===================================================================== *)
(** ** Exceptions and responses                                           *)
(* ===================================================================== *)

(** The exceptions the two handlers can meet. All of them are subclasses of
    Python's [Exception], [HTTPException] included. *)
Inductive Exn :=
| HTTPException (status_code : nat) (detail : string)
| AttributeError          (* a method called on [None] *)
| IndexError              (* a list index out of range *)
| FileNotFoundError (path : string)
| UnidentifiedImageError (path : string)  (* PIL: the file is not an image *)
| UnrecognizedImageError (path : string)  (* python-docx: likewise *)
| ValueError              (* a value a library refuses *)
| OverflowError.          (* a number too large for a library *)

(** What a client receives. A returned [dict] is a 200 JSON body; a raised
    [HTTPException] becomes a JSON error body with its status code; a body
    that fails validation is answered 422 by the framework, before the
    handler runs. *)
Inductive Response :=
| FileResponse (path filename media_type : string)
| JSONResponse (content : list (string * string))
| ErrorResponse (status_code : nat) (detail : string).

Definition status (r : Response) : nat :=
  match r with
  | FileResponse _ _ _ => 200
  | JSONResponse _ => 200
  | ErrorResponse s _ => s
  end.

(* ===================================================================== *)
(** ** The libraries behind the handlers                                  *)
(* ===================================================================== *)

(** Length units of python-docx, in EMU. [Inches] takes hundredths of an
    inch: every length literal of the source is a multiple of 0.01 and
    [int(x * 914400)] is exact on each of them. *)
Definition Inches (hundredths : Z) : Z := (hundredths * 9144)%Z.
Definition Pt (points : Z) : Z := (points * 12700)%Z.

(** The resampling filters of [Image.Resampling]. *)
Inductive Resampling := NEAREST | BOX | BILINEAR | HAMMING | BICUBIC | LANCZOS.

(** What the development takes from qrcode, PIL, the process and the
    exception classes:
    - a finite pixel format with the two colours the generator asks for;
    - [qr_matrix]: [add_data] followed by [make(fit=True)] at error
      correction level L, giving the module matrix of the smallest symbol
      version that holds the data, or the exception the encoder raises;
    - [resize]: [Image.resize((w, h), filter)], which either raises or
      returns an image; of a returned image only the size is specified,
      and none is returned for a width or height below one;
    - [text_error]: the exception python-docx raises when a string is made
      the text of a run, if it raises one: the text goes to lxml, which
      refuses control characters;
    - [save_error]: the exception [doc.save(path)] raises when the file
      cannot be opened for writing, a directory of the path missing, say,
      if it raises one;
    - [base_dir]: the directory of the running script;
    - [exn_str]: [str(e)], the message text of an exception. *)
Class Platform := {
  Pixel : Type;
  Pixel_eq_dec :: EqDecision Pixel;
  Pixel_finite :: Finite Pixel;
  black : Pixel;
  white : Pixel;
  qr_matrix : string → Exn + list (list bool);
  resize : list (list Pixel) → Z → Z → Resampling → Exn + list (list Pixel);
  resize_size : ∀ img w h filter out,
    resize img w h filter = inr out →
    (0 < w)%Z ∧ (0 < h)%Z ∧
    length out = Z.to_nat h ∧ ∀ row, row ∈ out → length row = Z.to_nat w;
  text_error : string → option Exn;
  save_error : string → option Exn;
  base_dir : string;
  exn_str : Exn → string
}.

Section Server.
Context `{Platform}.

(** A raster image: rows of pixels, top to bottom. *)
Definition Image : Type := list (list Pixel).


(* ===================================================================== *)
(** ** create_qr_code                                                     *)
(* ===================================================================== *)

(** Is the module at row [j], column [i] of the bordered symbol dark? The
    quiet zone of [border] modules around the matrix is light. *)
Definition module_dark (m : list (list bool)) (border j i : nat) : bool :=
  if (j <? border) || (i <? border) then false
  else default false (m !! (j - border) ≫= λ row, row !! (i - border)).

(** [qr.make_image(fill_color="black", back_color="white")]: every module
    is a [box_size] by [box_size] block of pixels. *)
Definition make_image (box_size border : nat) (m : list (list bool)) : Image :=
  let side := (length m + 2 * border) * box_size in
  (λ y, (λ x, if module_dark m border (y / box_size) (x / box_size)
              then black else white) <$> seq 0 side) <$> seq 0 side.

(** [create_qr_code(url, size)]. The returned buffer holds the PNG of the
    resized image; it is represented by that image. *)
Definition create_qr_code (url : string) (size : Z) : Exn + Image :=
  match qr_matrix url with
  | inl e => inl e
  | inr m =>
      let img := make_image 10 2 m in
      resize img size size LANCZOS
  end.

(* ===================================================================== *)
(** ** The document tree of python-docx                                   *)
(* ===================================================================== *)

(** An attribute the handler never sets stays [None]: the library's or the
    template's default. *)
Inductive WD_ALIGN_PARAGRAPH := LEFT | CENTER | RIGHT | JUSTIFY.

Record Picture := {
  pic_image : Image;
  pic_width : Z
}.

Record Run := {
  run_text : string;
  run_bold : option bool;
  run_size : option Z;
  run_color : option (Z * Z * Z);
  run_underline : option bool;
  run_picture : option Picture
}.

Record Paragraph := {
  alignment : option WD_ALIGN_PARAGRAPH;
  runs : list Run
}.

(** One [w:tcTop] / [w:tcLeft] / ... element appended to a cell's
    properties by [set_cell_border]. *)
Record BorderElement := {
  tag : string;
  val : string;
  sz : string;
  space : string;
  color : string
}.

Record Cell := {
  paragraphs : list Paragraph;
  width : option Z;
  borders : list BorderElement
}.

Record Table := {
  style : option string;
  autofit : option bool;
  rows : list (list Cell)
}.

Inductive Block :=
| BParagraph (p : Paragraph)
| BTable (t : Table).

Record Margins := {
  top_margin : option Z;
  bottom_margin : option Z;
  left_margin : option Z;
  right_margin : option Z
}.

Record Document := {
  sections : list Margins;
  body : list Block
}.

(** [Document()]: the default template, one section and an empty body. *)
Definition Document_new : Document :=
  {| sections := [ {| top_margin := None; bottom_margin := None;
                      left_margin := None; right_margin := None |} ];
     body := [] |}.

Definition new_run (text : string) : Run :=
  {| run_text := text; run_bold := None; run_size := None;
     run_color := None; run_underline := None; run_picture := None |}.

Definition new_paragraph : Paragraph := {| alignment := None; runs := [] |}.

Definition new_cell : Cell :=
  {| paragraphs := [new_paragraph]; width := None; borders := [] |}.

(** [paragraph.text] and [cell.text] (getters). *)
Fixpoint concat_strings (l : list string) : string :=
  match l with [] => "" | s :: l' => s +:+ concat_strings l' end.

Fixpoint join_lines (l : list string) : string :=
  match l with
  | [] => ""
  | [s] => s
  | s :: l' => s +:+ String "010" (join_lines l')
  end.

Definition paragraph_text (p : Paragraph) : string :=
  concat_strings (run_text <$> runs p).

Definition cell_text (c : Cell) : string :=
  join_lines (paragraph_text <$> paragraphs c).

(** [cell.text = s]: the content becomes one paragraph holding one run. *)
Definition set_cell_text (s : string) (c : Cell) : Cell :=
  {| paragraphs := [ {| alignment := None; runs := [new_run s] |} ];
     width := width c; borders := borders c |}.

(** [paragraph.text = s]: the runs are replaced by one run, the paragraph
    properties stay. *)
Definition set_paragraph_text (s : string) (p : Paragraph) : Paragraph :=
  {| alignment := alignment p; runs := [new_run s] |}.

Definition set_alignment (a : WD_ALIGN_PARAGRAPH) (p : Paragraph) : Paragraph :=
  {| alignment := Some a; runs := runs p |}.

(** [paragraph.add_run(...)] followed by the attribute assignments made on
    the returned run: the finished run is appended. *)
Definition add_run (r : Run) (p : Paragraph) : Paragraph :=
  {| alignment := alignment p; runs := runs p ++ [r] |}.

Definition set_cell_width (w : Z) (c : Cell) : Cell :=
  {| paragraphs := paragraphs c; width := Some w; borders := borders c |}.

Definition set_cell_paragraphs (ps : list Paragraph) (c : Cell) : Cell :=
  {| paragraphs := ps; width := width c; borders := borders c |}.

(** [doc.add_paragraph()] and [doc.add_table(rows, cols)] append to the
    body; the handle of the new element is its position there. *)
Definition add_paragraph (p : Paragraph) (doc : Document) : Document :=
  {| sections := sections doc; body := body doc ++ [BParagraph p] |}.

Definition new_table (nrows ncols : nat) : Table :=
  {| style := None; autofit := None;
     rows := replicate nrows (replicate ncols new_cell) |}.

Definition add_table (nrows ncols : nat) (doc : Document) : Document * nat :=
  ({| sections := sections doc;
      body := body doc ++ [BTable (new_table nrows ncols)] |},
   length (body doc)).

(** Updating the table behind handle [t]; the handle always comes from
    [add_table], a position that holds anything else is left alone. *)
Definition alter_table (t : nat) (f : Table → Table) (doc : Document) : Document :=
  {| sections := sections doc;
     body := alter (λ b, match b with BTable tb => BTable (f tb) | _ => b end)
                   t (body doc) |}.

Definition get_table (t : nat) (doc : Document) : option Table :=
  match body doc !! t with Some (BTable tb) => Some tb | _ => None end.

(** [table.rows[r].cells[c]]: [None] stands for the [IndexError] of an
    index out of range. *)
Definition get_cell (r c : nat) (tb : Table) : option Cell :=
  rows tb !! r ≫= λ row, row !! c.

(** [set_cell_border(cell, **kwargs)]. An edge is drawn when its keyword is
    present and truthy. *)
Definition capitalize_edge (edge : string) : string :=
  match edge with
  | String c rest =>
      let n := Ascii.nat_of_ascii c in
      String (if (97 <=? n) && (n <=? 122) then Ascii.ascii_of_nat (n - 32) else c)
             (PyStr.lower rest)
  | "" => ""
  end.

Definition border_element (edge : string) : BorderElement :=
  {| tag := "w:tc" +:+ capitalize_edge edge; val := "single"; sz := "4";
     space := "0"; color := "000000" |}.

(** [kwargs.get(edge)] and the truth value of what it returns. *)
Fixpoint kwargs_get (kwargs : list (string * Z)) (key : string) : option Z :=
  match kwargs with
  | [] => None
  | (k, v) :: rest => if bool_decide (k = key) then Some v else kwargs_get rest key
  end.

Definition truthy (o : option Z) : bool :=
  match o with Some v => negb (v =? 0)%Z | None => false end.

Definition set_cell_border (kwargs : list (string * Z)) (c : Cell) : Cell :=
  let drawn := List.filter (λ edge, truthy (kwargs_get kwargs edge))
                           ["top"; "left"; "bottom"; "right"] in
  {| paragraphs := paragraphs c; width := width c;
     borders := borders c ++ (border_element <$> drawn) |}.

(* ===================================================================== *)
(** ** The file system and the handler monad                              *)
(* ===================================================================== *)

(** What a file holds: an image in one of the raster formats PIL and
    python-docx read, a saved document, or anything else. Files are known
    by the path string the program uses for them. Directories are not
    modelled: [/tmp] and the directory of the script, where the handlers
    write under names of their own, are taken to be there; whether the one
    path a request chooses, that of the output document, can be written is
    [save_error]'s to say. *)
Inductive FileData :=
| ImageFile (img : Image)
| DocxFile (doc : Document)
| OtherFile (content : string).

Abbreviation Files := (gmap string FileData).

(** A handler body: it reads and writes files and either returns or raises.
    What it wrote before raising stays written. *)
Definition M (A : Type) : Type := Files → (Exn + A) * Files.

#[global] Instance M_ret : MRet M := λ A x fs, (inr x, fs).

#[global] Instance M_bind : MBind M := λ A B f m fs,
  match m fs with
  | (inl e, fs') => (inl e, fs')
  | (inr x, fs') => f x fs'
  end.

Definition raise {A} (e : Exn) : M A := λ fs, (inl e, fs).

(** A pure step that may raise. *)
Definition lift {A} (r : Exn + A) : M A := λ fs, (r, fs).

(** A lookup whose failure is exception [e]. *)
Definition or_raise {A} (e : Exn) (o : option A) : M A :=
  match o with Some x => mret x | None => raise e end.

(** [try: m except Exception as e: raise h(e)]. *)
Definition try_except {A} (m : M A) (h : Exn → Exn) : M A := λ fs,
  match m fs with
  | (inl e, fs') => (inl (h e), fs')
  | (inr x, fs') => (inr x, fs')
  end.

(** [os.path.exists], [open(path, "wb")] with the writes that follow,
    [os.remove]. *)
Definition path_exists (path : string) : M bool :=
  λ fs, (inr (bool_decide (is_Some (fs !! path))), fs).

Definition write_file (path : string) (d : FileData) : M () :=
  λ fs, (inr (), <[path := d]> fs).

Definition os_remove (path : string) : M () := λ fs,
  match fs !! path with
  | Some _ => (inr (), delete path fs)
  | None => (inl (FileNotFoundError path), fs)
  end.

(** [doc.save(path)]: the document is written unless the file cannot be
    opened. *)
Definition save_document (path : string) (d : FileData) : M () :=
  match save_error path with
  | Some e => raise e
  | None => write_file path d
  end.

(** What python-docx does with a text of the request before it stores it:
    it raises when lxml refuses the string. The literals of the handler
    and the numerals it formats are plain ASCII, which lxml takes. *)
Definition check_text (text : string) : M () :=
  match text_error text with
  | Some e => raise e
  | None => mret ()
  end.

(** Reading an image file: [Image.open(path)] of PIL and the image part of
    [run.add_picture(path, ...)] of python-docx. [unreadable] is the
    exception of the library for a file that is not an image. *)
Definition read_image (unreadable : string → Exn) (path : string) : M Image :=
  λ fs,
  match fs !! path with
  | Some (ImageFile img) => (inr img, fs)
  | Some _ => (inl (unreadable path), fs)
  | None => (inl (FileNotFoundError path), fs)
  end.

(** [run.add_picture(path, width=w)] on a run just added: the run that
    results. The height follows from the image and is not stored. *)
Definition add_picture (path : string) (w : Z) : M Run :=
  img ← read_image UnrecognizedImageError path;
  mret {| run_text := ""; run_bold := None; run_size := None;
          run_color := None; run_underline := None;
          run_picture := Some {| pic_image := img; pic_width := w |} |}.

(** How the framework answers: the returned response, or the error body of
    a raised [HTTPException]; any other exception that escapes a handler is
    a bare 500. *)
Definition respond (m : M Response) (fs : Files) : Response * Files :=
  match m fs with
  | (inr r, fs') => (r, fs')
  | (inl (HTTPException s d), fs') => (ErrorResponse s d, fs')
  | (inl _, fs') => (ErrorResponse 500 "Internal Server Error", fs')
  end.

(* ===================================================================== *)
(** ** POST /upload-logo                                                  *)
(* ===================================================================== *)

(** The upload as the handler receives it: the name and the content type
    of the part, each possibly [None], and what the part holds. *)
Record UploadFile := {
  filename : option string;
  content_type : option string;
  file : FileData
}.

Definition logo_extensions : list string := ["png"; "jpg"; "jpeg"].

(** The body of the [try] block. The conversion of a jpg or jpeg upload is
    [Image.open] followed by [img.save(png_path)]; the second step is
    described for the pictures the PNG writer takes. *)
Definition upload_logo_body (f : UploadFile) : M Response :=
  ct ← or_raise AttributeError (content_type f);
  if negb (PyStr.startswith "image/" ct)
  then raise (HTTPException 400 "File must be an image")
  else
    name ← or_raise AttributeError (filename f);
    let ext := PyStr.lower (PyStr.split_last "." name) in
    if negb (bool_decide (ext ∈ logo_extensions))
    then raise (HTTPException 400 "Only PNG, JPG, JPEG files allowed")
    else
      let logo_path := PyStr.path_join base_dir ("college_logo." +:+ ext) in
      write_file logo_path (file f);;
      if bool_decide (ext ∈ ["jpg"; "jpeg"])
      then
        img ← read_image UnidentifiedImageError logo_path;
        let png_path := PyStr.path_join base_dir "college_logo.png" in
        write_file png_path (ImageFile img);;
        os_remove logo_path;;
        mret (JSONResponse [("message", "Logo uploaded successfully");
                            ("filename", png_path)])
      else
        mret (JSONResponse [("message", "Logo uploaded successfully");
                            ("filename", logo_path)]).

Definition upload_logo (f : UploadFile) : M Response :=
  try_except (upload_logo_body f)
    (λ e, HTTPException 500 ("Error uploading logo: " +:+ exn_str e)).

(** The endpoint, for a request whose part arrived as a file. A request
    without a file part is answered 422 by the framework and does not reach
    the handler. *)
Definition post_upload_logo (f : UploadFile) (fs : Files) : Response * Files :=
  respond (upload_logo f) fs.

(* ===================================================================== *)
(** ** POST /generate-docx                                                *)
(* ===================================================================== *)

(** [table.rows[r].cells[c]] followed by assignments to the cell: the cell
    must exist ([IndexError] otherwise), and the table behind the handle is
    changed in place. *)
Definition alter_cell (r c : nat) (f : Cell → Cell) (tb : Table) : Table :=
  {| style := style tb; autofit := autofit tb;
     rows := alter (alter f c) r (rows tb) |}.

Definition update_cell (t r c : nat) (f : Cell → Cell) (doc : Document) : M Document :=
  match get_table t doc ≫= get_cell r c with
  | Some _ => mret (alter_table t (alter_cell r c f) doc)
  | None => raise IndexError
  end.

(** The same for [table.rows[r].cells[c].paragraphs[k]]. *)
Definition update_cell_paragraph (t r c k : nat) (f : Paragraph → Paragraph)
    (doc : Document) : M Document :=
  match (get_table t doc ≫= get_cell r c) ≫= (λ x, paragraphs x !! k) with
  | Some _ =>
      mret (alter_table t
              (alter_cell r c (λ x, set_cell_paragraphs (alter f k (paragraphs x)) x))
              doc)
  | None => raise IndexError
  end.

Definition set_margins (m : Margins) : Margins :=
  {| top_margin := Some (Inches 50); bottom_margin := Some (Inches 100);
     left_margin := Some (Inches 100); right_margin := Some (Inches 100) |}.

Definition logo_files : list string :=
  ["college_logo.png"; "college_logo.jpg"; "college_logo.jpeg"].

(** The loop over [logo_files]: the first file that exists is inserted,
    centred, 7 inches wide, and ends the loop. The result is the document
    and [logo_exists]. *)
Fixpoint add_logo (names : list string) (doc : Document) : M (Document * bool) :=
  match names with
  | [] => mret (doc, false)
  | name :: rest =>
      let logo_path := PyStr.path_join base_dir name in
      found ← path_exists logo_path;
      if found : bool
      then
        run ← add_picture logo_path (Inches 700);
        mret (add_paragraph {| alignment := Some CENTER; runs := [run] |} doc, true)
      else add_logo rest doc
  end.

Definition headers : list string :=
  ["Exp"; "Date"; "Name of The Experiment"; "QR Code"; "Mark"; "Signature"].

Definition bold_11 (r : Run) : Run :=
  {| run_text := run_text r; run_bold := Some true; run_size := Some (Pt 11);
     run_color := run_color r; run_underline := run_underline r;
     run_picture := run_picture r |}.

(** The body of the loop over [enumerate(headers)], on the cell. *)
Definition header_cell (header : string) (c : Cell) : Cell :=
  let c := set_cell_text header c in
  let c := set_cell_paragraphs
             ((λ p, set_alignment CENTER
                      {| alignment := alignment p; runs := bold_11 <$> runs p |})
                <$> paragraphs c) c in
  set_cell_border [("top", 1%Z); ("bottom", 1%Z); ("left", 1%Z); ("right", 1%Z)] c.

Fixpoint fill_headers (t idx : nat) (hs : list string) (doc : Document) : M Document :=
  match hs with
  | [] => mret doc
  | header :: rest =>
      doc ← update_cell t 0 idx (header_cell header) doc;
      fill_headers t (S idx) rest doc
  end.

Definition widths : list Z :=
  [Inches 50; Inches 80; Inches 300; Inches 80; Inches 60; Inches 100].

(** [for row in table.rows: row.cells[idx].width = width], the rows given
    by their indices. *)
Fixpoint set_column_width (t idx : nat) (w : Z) (row_indices : list nat)
    (doc : Document) : M Document :=
  match row_indices with
  | [] => mret doc
  | r :: rest =>
      doc ← update_cell t r idx (set_cell_width w) doc;
      set_column_width t idx w rest doc
  end.

Definition row_count (t : nat) (doc : Document) : nat :=
  match get_table t doc with Some tb => length (rows tb) | None => 0 end.

Fixpoint set_widths (t idx : nat) (ws : list Z) (doc : Document) : M Document :=
  match ws with
  | [] => mret doc
  | w :: rest =>
      doc ← set_column_width t idx w (seq 0 (row_count t doc)) doc;
      set_widths t (S idx) rest doc
  end.

Definition link_run (url : string) : Run :=
  {| run_text := url; run_bold := None; run_size := Some (Pt 9);
     run_color := Some (0, 0, 255)%Z; run_underline := Some true;
     run_picture := None |}.

Definition qr_filename (idx : nat) : string :=
  "/tmp/qr_" +:+ PyStr.str idx +:+ ".png".

(** The body of the loop over [enumerate(data.experiments)]. *)
Definition experiment_row (t idx : nat) (exp : Experiment)
    (st : Document * list string) : M (Document * list string) :=
  let '(doc, qr_images) := st in
  _ ← or_raise IndexError (get_table t doc ≫= λ tb, rows tb !! (idx + 1));
  doc ← update_cell t (idx + 1) 0
          (set_cell_text (PyStr.zfill 2 (PyStr.str (idx + 1)))) doc;
  doc ← update_cell_paragraph t (idx + 1) 0 0 (set_alignment CENTER) doc;
  check_text (if bool_decide (date exp = "") then "" else date exp);;
  doc ← update_cell t (idx + 1) 1
          (set_cell_text (if bool_decide (date exp = "") then "" else date exp)) doc;
  check_text (title exp);;
  check_text (github exp);;
  doc ← update_cell_paragraph t (idx + 1) 2 0
          (λ p, add_run (link_run (github exp))
                  (add_run (new_run (String "010" (String "010" "")))
                     (set_paragraph_text (title exp) p))) doc;
  qr_img_data ← lift (create_qr_code (github exp) 150);
  write_file (qr_filename idx) (ImageFile qr_img_data);;
  let qr_images := qr_images ++ [qr_filename idx] in
  doc ← update_cell t (idx + 1) 3 (set_cell_text "") doc;
  run ← add_picture (qr_filename idx) (Inches 75);
  doc ← update_cell_paragraph t (idx + 1) 3 0
          (λ p, add_run run (set_alignment CENTER p)) doc;
  doc ← update_cell t (idx + 1) 4 (set_cell_text "") doc;
  doc ← update_cell t (idx + 1) 5 (set_cell_text "") doc;
  mret (doc, qr_images).

Fixpoint experiment_rows (t idx : nat) (exps : list Experiment)
    (st : Document * list string) : M (Document * list string) :=
  match exps with
  | [] => mret st
  | exp :: rest =>
      st ← experiment_row t idx exp st;
      experiment_rows t (S idx) rest st
  end.

(** [for qr_file in qr_images: if os.path.exists(qr_file): os.remove(qr_file)]. *)
Fixpoint remove_qr_images (qr_images : list string) : M () :=
  match qr_images with
  | [] => mret ()
  | qr_file :: rest =>
      found ← path_exists qr_file;
      (if found : bool then os_remove qr_file else mret ());;
      remove_qr_images rest
  end.

Definition confirmation_text : string :=
  "I confirm that the experiments and GitHub links provided are entirely my own work.".

Definition size_11_run (text : string) : Run :=
  {| run_text := text; run_bold := None; run_size := Some (Pt 11);
     run_color := None; run_underline := None; run_picture := None |}.

Definition bold_run (text : string) : Run :=
  {| run_text := text; run_bold := Some true; run_size := None;
     run_color := None; run_underline := None; run_picture := None |}.

Definition title_run (text : string) : Run :=
  {| run_text := text; run_bold := Some true; run_size := Some (Pt 14);
     run_color := None; run_underline := None; run_picture := None |}.

Definition output_filename (data : RecordData) : string :=
  "/tmp/" +:+ register_number data +:+ "_Lab_Record.docx".

Definition docx_media_type : string :=
  "application/vnd.openxmlformats-officedocument.wordprocessingml.document".

Definition generate_docx_body (data : RecordData) : M Response :=
  let doc := Document_new in
  let doc := {| sections := set_margins <$> sections doc; body := body doc |} in
  '(doc, logo_exists) ← add_logo logo_files doc;
  let doc := if logo_exists : bool then add_paragraph new_paragraph doc else doc in
  check_text (course_title data);;
  let doc := add_paragraph {| alignment := Some CENTER;
                              runs := [title_run (course_title data)] |} doc in
  let doc := add_paragraph new_paragraph doc in
  let num_experiments := length (experiments data) in
  let '(doc, table) := add_table (num_experiments + 1) 6 doc in
  let doc := alter_table table
               (λ tb, {| style := Some "Table Grid"; autofit := autofit tb;
                         rows := rows tb |}) doc in
  doc ← fill_headers table 0 headers doc;
  doc ← set_widths table 0 widths doc;
  '(doc, qr_images) ← experiment_rows table 0 (experiments data) (doc, []);
  let doc := add_paragraph new_paragraph doc in
  let doc := add_paragraph new_paragraph doc in
  let doc := add_paragraph {| alignment := None;
                              runs := [bold_run confirmation_text] |} doc in
  let doc := add_paragraph new_paragraph doc in
  let '(doc, details_table) := add_table 2 2 doc in
  let doc := alter_table details_table
               (λ tb, {| style := style tb; autofit := Some false;
                         rows := rows tb |}) doc in
  check_text ("Name: " +:+ student_name data);;
  doc ← update_cell_paragraph details_table 0 0 0
          (add_run (size_11_run ("Name: " +:+ student_name data))) doc;
  check_text ("Register Number: " +:+ register_number data);;
  doc ← update_cell_paragraph details_table 0 1 0
          (λ p, set_alignment RIGHT
                  (add_run (size_11_run ("Register Number: " +:+ register_number data)) p))
          doc;
  save_document (output_filename data) (DocxFile doc);;
  let response := FileResponse (output_filename data) (output_filename data)
                               docx_media_type in
  remove_qr_images qr_images;;
  mret response.

Definition generate_docx (data : RecordData) : M Response :=
  try_except (generate_docx_body data)
    (λ e, HTTPException 500 ("Error: " +:+ exn_str e)).

(** The endpoint: the framework validates the body against [RecordData]
    and answers 422 itself when that fails. *)
Definition post_generate_docx (b : RecordBody) (fs : Files) : Response * Files :=
  match validate_RecordData b with
  | Some data => respond (generate_docx data) fs
  | None => (ErrorResponse 422 "Unprocessable Entity", fs)
  end.

(* ===================================================================== *)
(** ** What a build leaves behind                                         *)
(* ===================================================================== *)

(** The definitions of this part describe the result of [generate_docx]
    in closed form; the theorems further down relate the handler to them. *)

(** A document seen at one of its tables. *)
Definition focus (secs : list Margins) (pre : list Block) (tb : Table)
    (post : list Block) : Document :=
  {| sections := secs; body := pre ++ BTable tb :: post |}.

Definition header_row : list Cell := (λ h, header_cell h new_cell) <$> headers.

(** The widths pass, on one row. *)
Fixpoint apply_widths (c : nat) (ws : list Z) (row : list Cell) : list Cell :=
  match ws with
  | [] => row
  | w :: rest => apply_widths (S c) rest (alter (set_cell_width w) c row)
  end.

(** A row of the experiment table before its experiment is written. *)
Definition blank_row : list Cell := apply_widths 0 widths (replicate 6 new_cell).

Definition picture_run (img : Image) (w : Z) : Run :=
  {| run_text := ""; run_bold := None; run_size := None; run_color := None;
     run_underline := None;
     run_picture := Some {| pic_image := img; pic_width := w |} |}.

Definition text_cell (a : option WD_ALIGN_PARAGRAPH) (rs : list Run) (w : Z) : Cell :=
  {| paragraphs := [ {| alignment := a; runs := rs |} ]; width := Some w;
     borders := [] |}.

(** The row the loop body leaves for experiment [idx], [img] being the
    code image of its link. *)
Definition experiment_cells (idx : nat) (exp : Experiment) (img : Image) : list Cell :=
  [ text_cell (Some CENTER) [new_run (PyStr.zfill 2 (PyStr.str (idx + 1)))] (Inches 50);
    text_cell None [new_run (if bool_decide (date exp = "") then "" else date exp)]
              (Inches 80);
    text_cell None [new_run (title exp);
                    new_run (String "010" (String "010" ""));
                    link_run (github exp)] (Inches 300);
    text_cell (Some CENTER) [new_run ""; picture_run img (Inches 75)] (Inches 80);
    text_cell None [new_run ""] (Inches 60);
    text_cell None [new_run ""] (Inches 100) ].

(** The exception of the first text of a list that python-docx refuses. *)
Fixpoint first_error (texts : list string) : option Exn :=
  match texts with
  | [] => None
  | text :: rest =>
      match text_error text with
      | Some e => Some e
      | None => first_error rest
      end
  end.

(** The texts of the request a row stores, in the order it stores them, and
    what the row needs: its texts taken, then its code image generated. *)
Definition row_texts (exp : Experiment) : list string :=
  [date exp; title exp; github exp].

Definition encode_row (exp : Experiment) : Exn + Image :=
  match first_error (row_texts exp) with
  | Some e => inl e
  | None => create_qr_code (github exp) 150
  end.

(** The code images of the experiments, in order, up to the first row that
    raises, and the exception raised there. *)
Fixpoint encode_all (exps : list Experiment) : list Image * option Exn :=
  match exps with
  | [] => ([], None)
  | exp :: rest =>
      match encode_row exp with
      | inl e => ([], Some e)
      | inr img => let '(imgs, err) := encode_all rest in (img :: imgs, err)
      end
  end.

(** The texts of the footer, and what can stop a build after the
    experiments loop: a footer text refused, or the document not saved. *)
Definition footer_texts (data : RecordData) : list string :=
  [ "Name: " +:+ student_name data;
    "Register Number: " +:+ register_number data ].

Definition finish_error (data : RecordData) : option Exn :=
  match first_error (footer_texts data) with
  | Some e => Some e
  | None => save_error (output_filename data)
  end.

(** The files the loop has written once it has staged [imgs]. *)
Fixpoint stage_files (idx : nat) (imgs : list Image) (fs : Files) : Files :=
  match imgs with
  | [] => fs
  | img :: rest => stage_files (S idx) rest (<[qr_filename idx := ImageFile img]> fs)
  end.

Fixpoint experiment_table_rows (idx : nat) (exps : list Experiment)
    (imgs : list Image) : list (list Cell) :=
  match exps, imgs with
  | exp :: exps', img :: imgs' =>
      experiment_cells idx exp img :: experiment_table_rows (S idx) exps' imgs'
  | _, _ => []
  end.

Definition remove_all (paths : list string) (fs : Files) : Files :=
  foldl (λ fs p, delete p fs) fs paths.

(** What the loop over [logo_files] finds: the image of the first file
    that exists, an exception when that file is not an image, or nothing. *)
Fixpoint find_logo (names : list string) (fs : Files) : Exn + option Image :=
  match names with
  | [] => inr None
  | name :: rest =>
      match fs !! PyStr.path_join base_dir name with
      | Some (ImageFile img) => inr (Some img)
      | Some _ => inl (UnrecognizedImageError (PyStr.path_join base_dir name))
      | None => find_logo rest fs
      end
  end.

Definition logo_paragraph (img : Image) : Paragraph :=
  {| alignment := Some CENTER; runs := [picture_run img (Inches 700)] |}.

(** The document a completed build saves, given what the logo loop found
    and the code images of the experiments. *)
Definition logo_blocks (logo : option Image) : list Block :=
  match logo with
  | Some img => [BParagraph (logo_paragraph img); BParagraph new_paragraph]
  | None => []
  end.

Definition experiment_table (data : RecordData) (imgs : list Image) : Table :=
  {| style := Some "Table Grid"; autofit := None;
     rows := apply_widths 0 widths header_row
             :: experiment_table_rows 0 (experiments data) imgs |}.

Definition details_cell (a : option WD_ALIGN_PARAGRAPH) (text : string) : Cell :=
  {| paragraphs := [ {| alignment := a; runs := [size_11_run text] |} ];
     width := None; borders := [] |}.

Definition details_table (data : RecordData) : Table :=
  {| style := None; autofit := Some false;
     rows := [ [ details_cell None ("Name: " +:+ student_name data);
                 details_cell (Some RIGHT)
                   ("Register Number: " +:+ register_number data) ];
               [ new_cell; new_cell ] ] |}.

Definition document_of (data : RecordData) (logo : option Image)
    (imgs : list Image) : Document :=
  {| sections := [ set_margins {| top_margin := None; bottom_margin := None;
                                  left_margin := None; right_margin := None |} ];
     body := logo_blocks logo ++
             [ BParagraph {| alignment := Some CENTER;
                             runs := [title_run (course_title data)] |};
               BParagraph new_paragraph;
               BTable (experiment_table data imgs);
               BParagraph new_paragraph;
               BParagraph new_paragraph;
               BParagraph {| alignment := None; runs := [bold_run confirmation_text] |};
               BParagraph new_paragraph;
               BTable (details_table data) ] |}.

Definition qr_filenames (n : nat) : list string := qr_filename <$> seq 0 n.

(** The files a completed build leaves: the staged code images written
    and removed again, the output document saved. *)
Definition built_files (data : RecordData) (logo : option Image)
    (imgs : list Image) (fs : Files) : Files :=
  remove_all (qr_filenames (length (experiments data)))
    (<[output_filename data := DocxFile (document_of data logo imgs)]>
       (stage_files 0 imgs fs)).

(* ===================================================================== *)
(** ** Observations on documents and files                                *)
(* ===================================================================== *)

(** The tables of a document, in body order. *)
Definition tables (doc : Document) : list Table :=
  omap (λ b, match b with BTable tb => Some tb | BParagraph _ => None end)
       (body doc).

(** The document saved at [path], if a document is what the file holds. *)
Definition saved_document (fs : Files) (path : string) : option Document :=
  match fs !! path with Some (DocxFile doc) => Some doc | _ => None end.

(** [logo_uploaded] of the root endpoint: is there a logo file under any
    of the three extensions? *)
Definition logo_uploaded (fs : Files) : bool :=
  existsb (λ ext, bool_decide
                    (is_Some (fs !! PyStr.path_join base_dir ("college_logo." +:+ ext))))
          ["png"; "jpg"; "jpeg"].

(** A link for which the generator returns a code image of the size the
    handler asks for. *)
Definition encodable (url : string) : Prop :=
  ∃ img, create_qr_code url 150 = inr img.

(** A record the libraries take: python-docx accepts every text of it, the
    generator returns a code image for every link, and the output document
    can be written. *)
Definition accepted (data : RecordData) : Prop :=
  text_error (course_title data) = None ∧
  Forall (λ exp, first_error (row_texts exp) = None ∧ encodable (github exp))
         (experiments data) ∧
  first_error (footer_texts data) = None ∧
  save_error (output_filename data) = None.

(** The picture a run carries, and the pictures of a cell. *)
Definition cell_pictures (c : Cell) : list Picture :=
  omap run_picture (paragraphs c ≫= runs).

(** The structure of a document: everything but the pixels of its
    pictures, that is the elements, their text and their styling. *)
Definition strip_run (r : Run) : Run :=
  {| run_text := run_text r; run_bold := run_bold r; run_size := run_size r;
     run_color := run_color r; run_underline := run_underline r;
     run_picture := (λ p, {| pic_image := []; pic_width := pic_width p |})
                      <$> run_picture r |}.

Definition strip_paragraph (p : Paragraph) : Paragraph :=
  {| alignment := alignment p; runs := strip_run <$> runs p |}.

Definition strip_cell (c : Cell) : Cell :=
  {| paragraphs := strip_paragraph <$> paragraphs c; width := width c;
     borders := borders c |}.

Definition strip_block (b : Block) : Block :=
  match b with
  | BParagraph p => BParagraph (strip_paragraph p)
  | BTable tb =>
      BTable {| style := style tb; autofit := autofit tb;
                rows := (λ row : list Cell, strip_cell <$> row) <$> rows tb |}
  end.

Definition strip_images (doc : Document) : Document :=
  {| sections := sections doc; body := strip_block <$> body doc |}.

(** Does a string contain the path separator? *)
Fixpoint has_path_separator (s : string) : bool :=
  match s with
  | "" => false
  | String c rest => bool_decide (c = "/"%char) || has_path_separator rest
  end.

End Server.

Abbreviation Files := (gmap string FileData).

(* ===================================================================== *)
(** ** GET / and GET /health                                              *)
(* ===================================================================== *)

(** The values of the dictionaries the two status endpoints return. *)
Inductive JsonValue :=
| JsonString (s : string)
| JsonBool (b : bool).

Section Status.
Context `{Platform}.

(** [root()]: [logo_exists] is [any(os.path.exists(...) for ext in ...)],
    the expression [logo_uploaded] stands for. *)
Definition root : M (list (string * JsonValue)) := λ fs,
  let logo_exists := logo_uploaded fs in
  (inr [ ("message", JsonString "Lab Record Generator API");
         ("status", JsonString "running");
         ("version", JsonString "1.0");
         ("logo_uploaded", JsonBool logo_exists) ], fs).

(** [health_check()]. *)
Definition health_check : M (list (string * JsonValue)) :=
  mret [ ("status", JsonString "healthy") ].

(** The path of the logo file with extension [ext], as both [upload_logo]
    and [root] form it. *)
Definition logo_path (ext : string) : string :=
  PyStr.path_join base_dir ("college_logo." +:+ ext).

(** Further observations on documents and images. *)

(** The text of a body element that is a paragraph. *)
Definition block_text (b : Block) : option string :=
  match b with
  | BParagraph p => Some (paragraph_text p)
  | BTable _ => None
  end.

(** The pictures of the paragraphs of the body, the tables left out. *)
Definition body_pictures (doc : Document) : list Picture :=
  omap run_picture (body doc ≫= λ b,
                      match b with BParagraph p => runs p | BTable _ => [] end).

(** The four elements [set_cell_border] adds for four truthy edges. *)
Definition four_borders : list BorderElement :=
  [ {| tag := "w:tcTop"; val := "single"; sz := "4"; space := "0"; color := "000000" |};
    {| tag := "w:tcLeft"; val := "single"; sz := "4"; space := "0"; color := "000000" |};
    {| tag := "w:tcBottom"; val := "single"; sz := "4"; space := "0"; color := "000000" |};
    {| tag := "w:tcRight"; val := "single"; sz := "4"; space := "0"; color := "000000" |} ].

Definition uploaded_response : Response :=
  JSONResponse [("message", "Logo uploaded successfully");
                ("filename", logo_path "png")].

(** The pixel of an image in column [x] of row [y]. *)
Definition pixel_at (img : list (list Pixel)) (x y : nat) : option Pixel :=
  img !! y ≫= λ row, row !! x.

End Status.

(** [s] ends with [suffix]. *)
Definition ends_with (suffix s : string) : Prop := ∃ x, s = x +:+ suffix.

(* ===================================================================== *)
(** ** A concrete platform for running the handlers                       *)
(* ===================================================================== *)

(** Black-and-white pixels, nearest-neighbour resampling and a stand-in
    symbol encoder: enough to run the handlers on concrete requests. The
    theorems below hold for every platform; this one instantiates them. *)
Module Sample.

(** The byte capacity of the largest symbol (version 40) at level L. *)
Definition capacity : nat := 2953.

(** A version-1 sized matrix (21 by 21 modules) whose pattern depends on
    the length of the data only. *)
Definition toy_matrix (s : string) : Exn + list (list bool) :=
  if capacity <? String.length s then inl ValueError
  else inr ((λ r, (λ c, Nat.even (r + c + String.length s)) <$> seq 0 21)
              <$> seq 0 21).

Definition nearest (img : list (list bool)) (w h : nat) : list (list bool) :=
  let src_h := N.of_nat (length img) in
  let src_w := N.of_nat (length (default [] (head img))) in
  let scale (i src dst : N) : nat := N.to_nat (i * src / dst) in
  (λ y, (λ x, default true
                (img !! scale (N.of_nat y) src_h (N.of_nat h)
                   ≫= λ row, row !! scale (N.of_nat x) src_w (N.of_nat w)))
          <$> seq 0 w) <$> seq 0 h.

Lemma nearest_rows img w h : length (nearest img w h) = h.
Proof. unfold nearest. by rewrite length_fmap, length_seq. Qed.

Lemma nearest_cols img w h row : row ∈ nearest img w h → length row = w.
Proof.
  unfold nearest. intros (y & -> & _)%list_elem_of_fmap.
  by rewrite length_fmap, length_seq.
Qed.

(** Resampling that raises for a width or height below one and for one
    that does not fit a C [int], as the library does, and ignores the
    filter. *)
Definition nearest_resize (img : list (list bool)) (w h : Z) (filter : Resampling)
  : Exn + list (list bool) :=
  if ((2 ^ 31 <=? w) || (2 ^ 31 <=? h))%Z then inl OverflowError
  else if ((w <=? 0) || (h <=? 0))%Z then inl ValueError
  else inr (nearest img (Z.to_nat w) (Z.to_nat h)).

Lemma nearest_resize_size img w h filter out :
  nearest_resize img w h filter = inr out →
  (0 < w)%Z ∧ (0 < h)%Z ∧
  length out = Z.to_nat h ∧ ∀ row, row ∈ out → length row = Z.to_nat w.
Proof.
  unfold nearest_resize. destruct (_ || _)%Z; [done|].
  destruct (Z.leb_spec w 0); [done|]. destruct (Z.leb_spec h 0); [done|].
  cbn. intros [= <-]. split_and!; [done|done|apply nearest_rows|apply nearest_cols].
Qed.

(** A stand-in for the check of lxml: control characters other than tab,
    line feed and carriage return are refused. *)
Fixpoint control_free (s : string) : bool :=
  match s with
  | "" => true
  | String c rest =>
      let n := nat_of_ascii c in
      ((31 <? n) || (n =? 9) || (n =? 10) || (n =? 13)) && control_free rest
  end.

Definition refuse_control (s : string) : option Exn :=
  if control_free s then None else Some ValueError.

(** A stand-in for the directories of the disk: the root, [/tmp] and the
    directories down to the one of the script. A file can be written when
    the path leads through directories that are there. *)
Fixpoint components (cur s : string) : list string :=
  match s with
  | "" => [cur]
  | String c rest =>
      if bool_decide (c = "/"%char) then cur :: components "" rest
      else components (cur +:+ String c "") rest
  end.

Definition directories : list (list string) :=
  [ []; ["tmp"]; ["opt"]; ["opt"; "render"]; ["opt"; "render"; "project"];
    ["opt"; "render"; "project"; "src"] ].

Fixpoint walk (dir names : list string) : option (list string) :=
  match names with
  | [] => Some dir
  | name :: rest =>
      let dir' := if bool_decide (name = "") || bool_decide (name = ".") then dir
                  else if bool_decide (name = "..") then removelast dir
                  else dir ++ [name] in
      if bool_decide (dir' ∈ directories) then walk dir' rest else None
  end.

Definition missing_directory (path : string) : option Exn :=
  match walk [] (removelast (components "" path)) with
  | Some _ => None
  | None => Some (FileNotFoundError path)
  end.

Definition class_name (e : Exn) : string :=
  match e with
  | HTTPException s d => PyStr.str s +:+ ": " +:+ d
  | AttributeError => "AttributeError"
  | IndexError => "IndexError"
  | FileNotFoundError p => "FileNotFoundError: " +:+ p
  | UnidentifiedImageError p => "UnidentifiedImageError: " +:+ p
  | UnrecognizedImageError p => "UnrecognizedImageError: " +:+ p
  | ValueError => "ValueError"
  | OverflowError => "OverflowError"
  end.

Definition platform : Platform :=
  {| Pixel := bool; black := false; white := true;
     qr_matrix := toy_matrix;
     resize := nearest_resize;
     resize_size := nearest_resize_size;
     text_error := refuse_control;
     save_error := missing_directory;
     base_dir := "/opt/render/project/src";
     exn_str := class_name |}.

Definition experiment : Experiment :=
  {| title := "Exp1"; date := "2024-01-01"; github := "https://github.com/x/y" |}.

Definition record : RecordData :=
  {| course_title := "Intro to Systems"; student_name := "Jane Doe";
     register_number := "RA001"; experiments := [experiment] |}.

Definition empty_record : RecordData :=
  {| course_title := "Intro to Systems"; student_name := "Jane Doe";
     register_number := "RA001"; experiments := [] |}.

(** Records without experiments: one whose course title is the control
    character U+0001, one whose register number names a directory that is
    not there. *)
Definition control_title_record : RecordData :=
  {| course_title := String "001" ""; student_name := "Jane Doe";
     register_number := "RA001"; experiments := [] |}.

Definition slash_record : RecordData :=
  {| course_title := "Intro to Systems"; student_name := "Jane Doe";
     register_number := "a/b"; experiments := [] |}.

(** A body whose only experiment has an empty link. *)
Definition empty_link_body : RecordBody :=
  {| body_course_title := Some "Intro to Systems";
     body_student_name := Some "Jane Doe";
     body_register_number := Some "RA001";
     body_experiments :=
       Some [ {| body_title := Some "Exp1"; body_date := None;
                 body_github := Some "" |} ] |}.

(** A body whose register number walks out of and back into [/tmp]. *)
Definition dotted_body : RecordBody :=
  {| body_course_title := Some "Intro to Systems";
     body_student_name := Some "Jane Doe";
     body_register_number := Some "../tmp/RA001";
     body_experiments := Some [] |}.

End Sample.

(** Further sample requests. *)
Section SampleRequests.
#[local] Existing Instance Sample.platform.

(** A record whose second link is longer than the stand-in encoder takes. *)
Definition overlong_record : RecordData :=
  {| course_title := "Intro to Systems"; student_name := "Jane Doe";
     register_number := "RA001";
     experiments :=
       [ Sample.experiment;
         {| title := "Exp2"; date := ""; github := PyStr.zeros 3000 |} ] |}.

(** The sample record under a register number that names a directory which
    is not there. *)
Definition unsaved_record : RecordData :=
  {| course_title := "Intro to Systems"; student_name := "Jane Doe";
     register_number := "a/b"; experiments := [Sample.experiment] |}.

(** The upload of a picture under a JPG name. *)
Definition jpg_upload : UploadFile :=
  {| filename := Some "Logo.JPG"; content_type := Some "image/jpeg";
     file := ImageFile [[true; false]; [false; true]] |}.

(** The upload of a text file under a png name, and under a jpg name. *)
Definition text_as_png : UploadFile :=
  {| filename := Some "notes.png"; content_type := Some "image/png";
     file := OtherFile "not an image" |}.


End SampleRequests.

(* ===================================================================== *)
(** ** Facts about the string primitives                                  *)
(* ===================================================================== *)

Module PyStrFacts.
Import PyStr.

Lemma app_cons (c : ascii) (s t : string) : String c s +:+ t = String c (s +:+ t).
Proof. reflexivity. Qed.

Lemma app_nil_l (t : string) : "" +:+ t = t.
Proof. reflexivity. Qed.

Lemma app_nil_r (s : string) : s +:+ "" = s.
Proof.
  induction s as [|c s IH]; [done|]. by rewrite app_cons, IH.
Qed.

Lemma length_app (s t : string) :
  String.length (s +:+ t) = String.length s + String.length t.
Proof.
  induction s as [|c s IH]; [done|].
  rewrite app_cons. cbn. by rewrite IH.
Qed.

Lemma last_char_app (s t : string) :
  t ≠ "" → last_char (s +:+ t) = last_char t.
Proof.
  intros Ht. induction s as [|c s IH]; [done|].
  rewrite app_cons. cbn. rewrite IH.
  destruct (s +:+ t) eqn:E; [|done].
  destruct s; cbn in E; [done | discriminate].
Qed.

Lemma str_fuel_enough (f1 f2 n : nat) :
  n < f1 → n < f2 → str_fuel f1 n = str_fuel f2 n.
Proof.
  revert f2 n. induction f1 as [|f1 IH]; intros [|f2] n H1 H2; try lia.
  cbn [str_fuel]. destruct (n <? 10) eqn:E; [done|].
  apply Nat.ltb_ge in E.
  assert (n / 10 < n) by (apply Nat.div_lt; lia).
  f_equal. apply IH; lia.
Qed.

Lemma str_small (n : nat) : n < 10 → str n = String (digit_char n) "".
Proof.
  intros Hn. unfold str. cbn [str_fuel].
  by apply Nat.ltb_lt in Hn as ->.
Qed.

Lemma str_large (n : nat) :
  10 ≤ n → str n = str (n / 10) +:+ String (digit_char (n mod 10)) "".
Proof.
  intros Hn. unfold str at 1. cbn [str_fuel].
  apply Nat.ltb_ge in Hn as E. rewrite E. f_equal.
  assert (n / 10 < n) by (apply Nat.div_lt; lia).
  apply str_fuel_enough; lia.
Qed.

Lemma length_str_pos (n : nat) : 1 ≤ String.length (str n).
Proof.
  destruct (decide (n < 10)) as [Hn|Hn].
  - by rewrite str_small.
  - rewrite str_large, length_app by lia. cbn [String.length]. lia.
Qed.

Lemma length_str_small (n : nat) : n < 10 → String.length (str n) = 1.
Proof. intros Hn. by rewrite str_small. Qed.

Lemma length_str_large (n : nat) : 10 ≤ n → 2 ≤ String.length (str n).
Proof.
  intros Hn. rewrite str_large, length_app by lia.
  pose proof (length_str_pos (n / 10)). cbn [String.length]. lia.
Qed.

Lemma length_str_two (n : nat) : 10 ≤ n < 100 → String.length (str n) = 2.
Proof.
  intros Hn. rewrite str_large, length_app by lia.
  rewrite length_str_small; [done|].
  apply Nat.Div0.div_lt_upper_bound; lia.
Qed.

Lemma is_nat_digit_char (d : nat) : d < 10 → Ascii.is_nat (digit_char d) = Some d.
Proof. intros Hd. do 10 (destruct d as [|d]; [done|]). lia. Qed.

Lemma digit_char_not_sign (d : nat) :
  d < 10 → digit_char d ≠ "+"%char ∧ digit_char d ≠ "-"%char.
Proof. intros Hd. do 10 (destruct d as [|d]; [done|]). lia. Qed.

Lemma int_acc_snoc (acc d : nat) (s : string) :
  d < 10 →
  int_acc acc (s +:+ String (digit_char d) "")
  = (λ v, 10 * v + d) <$> int_acc acc s.
Proof.
  intros Hd. revert acc. induction s as [|c s IH]; intros acc.
  - rewrite app_nil_l. cbn [int_acc]. by rewrite is_nat_digit_char.
  - rewrite app_cons. cbn [int_acc]. destruct (Ascii.is_nat c); [|done].
    apply IH.
Qed.

Lemma int_acc_str (n : nat) : int_acc 0 (str n) = Some n.
Proof.
  induction (lt_wf n) as [n _ IH].
  destruct (decide (n < 10)) as [Hn|Hn].
  - rewrite str_small by done. cbn [int_acc]. rewrite is_nat_digit_char by done.
    cbn [int_acc]. f_equal; lia.
  - assert (n / 10 < n) by (apply Nat.div_lt; lia).
    pose proof (Nat.mod_upper_bound n 10).
    rewrite str_large, int_acc_snoc, IH by lia. cbn [fmap option_fmap option_map].
    f_equal. pose proof (Nat.div_mod_eq n 10). lia.
Qed.

(** Zeros in front do not change the value read back. *)
Lemma int_acc_zeros (k : nat) (s : string) :
  int_acc 0 (zeros k +:+ s) = int_acc 0 s.
Proof. induction k as [|k IH]; [done|]. cbn [zeros]. by rewrite app_cons. Qed.

(** [str(n).zfill(2)]: one zero in front of a single digit, nothing in
    front of a longer numeral. *)
Lemma zfill_2_str (n : nat) :
  zfill 2 (str n) = if n <? 10 then String "0" (str n) else str n.
Proof.
  destruct (n <? 10) eqn:E.
  - apply Nat.ltb_lt in E. rewrite str_small by done. unfold zfill.
    destruct (digit_char_not_sign n E) as [H1 H2].
    rewrite bool_decide_eq_false_2 by (intros [?|?]; done). done.
  - apply Nat.ltb_ge in E. pose proof (length_str_large n E) as Hl.
    unfold zfill. destruct (str n) as [|c rest] eqn:Es; [cbn in Hl; lia|].
    replace (2 - String.length (String c rest)) with 0 by lia.
    by destruct (bool_decide _).
Qed.

End PyStrFacts.

Example str_examples :
  PyStr.str 0 = "0" ∧ PyStr.str 7 = "7" ∧ PyStr.str 12 = "12" ∧
  PyStr.str 100 = "100" ∧ PyStr.str 2024 = "2024".
Proof. repeat split; reflexivity. Qed.

Example zfill_examples :
  PyStr.zfill 2 "1" = "01" ∧ PyStr.zfill 2 "12" = "12" ∧
  PyStr.zfill 2 "100" = "100" ∧ PyStr.zfill 5 "-42" = "-0042" ∧
  PyStr.zfill 2 "" = "00".
Proof. repeat split; reflexivity. Qed.

Example split_lower_examples :
  PyStr.lower (PyStr.split_last "." "Logo.Final.PNG") = "png" ∧
  PyStr.split_last "." "logo" = "logo" ∧
  PyStr.split_last "." "logo." = "" ∧
  PyStr.path_join "/opt/app" "college_logo.png" = "/opt/app/college_logo.png" ∧
  PyStr.path_join "/" "college_logo.png" = "/college_logo.png".
Proof. repeat split; reflexivity. Qed.

(* ===================================================================== *)
(** ** Running the handlers                                               *)
(* ===================================================================== *)

Section Properties.
Context `{Platform}.

Lemma bind_run {A B} (m : M A) (f : A → M B) (fs : Files) :
  (m ≫= f) fs = match m fs with
                | (inl e, fs') => (inl e, fs')
                | (inr x, fs') => f x fs'
                end.
Proof. reflexivity. Qed.

Lemma ret_run {A} (x : A) (fs : Files) : (mret x : M A) fs = (inr x, fs).
Proof. reflexivity. Qed.

Lemma get_table_focus secs pre tb post :
  get_table (length pre) (focus secs pre tb post) = Some tb.
Proof. unfold get_table, focus; cbn. by rewrite list_lookup_middle. Qed.

Lemma alter_table_focus secs pre tb post g :
  alter_table (length pre) g (focus secs pre tb post) = focus secs pre (g tb) post.
Proof.
  unfold alter_table, focus; cbn. f_equal.
  rewrite alter_app_r_alt by lia. by rewrite Nat.sub_diag.
Qed.

Lemma update_cell_focus secs pre tb post r c f x fs :
  get_cell r c tb = Some x →
  update_cell (length pre) r c f (focus secs pre tb post) fs
  = (inr (focus secs pre (alter_cell r c f tb) post), fs).
Proof.
  intros Hx. unfold update_cell. rewrite get_table_focus. cbn. rewrite Hx.
  by rewrite alter_table_focus.
Qed.

Lemma update_cell_paragraph_focus secs pre tb post r c k f x p fs :
  get_cell r c tb = Some x → paragraphs x !! k = Some p →
  update_cell_paragraph (length pre) r c k f (focus secs pre tb post) fs
  = (inr (focus secs pre
            (alter_cell r c (λ x, set_cell_paragraphs (alter f k (paragraphs x)) x) tb)
            post), fs).
Proof.
  intros Hx Hp. unfold update_cell_paragraph. rewrite get_table_focus. cbn.
  rewrite Hx. cbn. rewrite Hp. by rewrite alter_table_focus.
Qed.

Lemma get_cell_row st af (A : list (list Cell)) b B c :
  get_cell (length A) c (Build_Table st af (A ++ b :: B)) = b !! c.
Proof. unfold get_cell; cbn. by rewrite list_lookup_middle. Qed.

Lemma alter_cell_row st af (A : list (list Cell)) b B c f :
  alter_cell (length A) c f (Build_Table st af (A ++ b :: B))
  = Build_Table st af (A ++ alter f c b :: B).
Proof.
  unfold alter_cell; cbn. f_equal.
  rewrite alter_app_r_alt by lia. by rewrite Nat.sub_diag.
Qed.

Lemma fill_headers_focus secs pre st af B post fs :
  fill_headers (length pre) 0 headers
    (focus secs pre (Build_Table st af (replicate 6 new_cell :: B)) post) fs
  = (inr (focus secs pre (Build_Table st af (header_row :: B)) post), fs).
Proof.
  unfold headers, fill_headers.
  do 6 (rewrite bind_run; erewrite update_cell_focus by reflexivity).
  reflexivity.
Qed.

Lemma length_apply_widths ws : ∀ c row, length (apply_widths c ws row) = length row.
Proof.
  induction ws as [|w ws IH]; intros c row; [done|].
  cbn. by rewrite IH, length_alter.
Qed.

Lemma set_column_width_focus secs pre st af post c w fs : ∀ B A,
  (∀ row, row ∈ B → c < length row) →
  set_column_width (length pre) c w (seq (length A) (length B))
    (focus secs pre (Build_Table st af (A ++ B)) post) fs
  = (inr (focus secs pre
            (Build_Table st af (A ++ (alter (set_cell_width w) c <$> B))) post), fs).
Proof.
  induction B as [|b B IH]; intros A HB; [done|].
  cbn [length seq set_column_width]. rewrite bind_run.
  destruct (lookup_lt_is_Some_2 b c) as [x Hx]; [apply HB; left|].
  erewrite update_cell_focus by (rewrite get_cell_row; exact Hx).
  rewrite alter_cell_row, fmap_cons.
  rewrite !(cons_middle _ A), !app_assoc.
  replace (S (length A)) with (length (A ++ [alter (set_cell_width w) c b]))
    by (rewrite length_app; cbn; lia).
  apply IH. intros row Hrow. apply HB. by right.
Qed.

Lemma set_widths_focus secs pre st af post fs : ∀ ws c R,
  (∀ row, row ∈ R → c + length ws ≤ length row) →
  set_widths (length pre) c ws (focus secs pre (Build_Table st af R) post) fs
  = (inr (focus secs pre (Build_Table st af (apply_widths c ws <$> R)) post), fs).
Proof.
  induction ws as [|w ws IH]; intros c R HR.
  - cbn. by rewrite list_fmap_id.
  - cbn [set_widths]. rewrite bind_run.
    unfold row_count. rewrite get_table_focus. cbn [rows].
    pose proof (set_column_width_focus secs pre st af post c w fs R []) as Hc.
    cbn [app length] in Hc. rewrite Hc.
    2:{ intros row Hrow. specialize (HR row Hrow). cbn in HR. lia. }
    rewrite IH.
    + by rewrite <- list_fmap_compose.
    + intros row (row' & -> & Hrow)%list_elem_of_fmap.
      rewrite length_alter. specialize (HR row' Hrow). cbn in HR. lia.
Qed.

Lemma experiment_row_focus secs pre st af A B post idx exp qrs fs :
  length A = idx + 1 →
  experiment_row (length pre) idx exp
    (focus secs pre (Build_Table st af (A ++ blank_row :: B)) post, qrs) fs
  = match encode_row exp with
    | inl e => (inl e, fs)
    | inr img =>
        (inr (focus secs pre
                (Build_Table st af (A ++ experiment_cells idx exp img :: B)) post,
              qrs ++ [qr_filename idx]),
         <[qr_filename idx := ImageFile img]> fs)
    end.
Proof.
  intros HA. unfold experiment_row, experiment_cells.
  generalize (PyStr.zfill 2 (PyStr.str (idx + 1))); intros seq_text.
  rewrite <- HA.
  rewrite bind_run, get_table_focus. cbn [mbind option_bind rows].
  rewrite list_lookup_middle by done. cbn [or_raise]. rewrite ret_run.
  rewrite bind_run; erewrite update_cell_focus by (rewrite get_cell_row; reflexivity).
  rewrite alter_cell_row.
  rewrite bind_run; erewrite update_cell_paragraph_focus
    by first [rewrite get_cell_row; reflexivity | reflexivity].
  rewrite alter_cell_row.
  unfold encode_row, row_texts. cbn [first_error].
  replace (if bool_decide (date exp = "") then "" else date exp) with (date exp)
    by (by case_bool_decide).
  rewrite bind_run. unfold check_text at 1.
  destruct (text_error (date exp)) as [e|]; [done|]. rewrite ret_run.
  rewrite bind_run; erewrite update_cell_focus by (rewrite get_cell_row; reflexivity).
  rewrite alter_cell_row.
  rewrite bind_run. unfold check_text at 1.
  destruct (text_error (title exp)) as [e|]; [done|]. rewrite ret_run.
  rewrite bind_run. unfold check_text at 1.
  destruct (text_error (github exp)) as [e|]; [done|]. rewrite ret_run.
  rewrite bind_run; erewrite update_cell_paragraph_focus
    by first [rewrite get_cell_row; reflexivity | reflexivity].
  rewrite alter_cell_row.
  rewrite bind_run. unfold lift at 1.
  destruct (create_qr_code (github exp) 150) as [e|img]; [done|].
  rewrite bind_run. unfold write_file at 1.
  rewrite bind_run; erewrite update_cell_focus by (rewrite get_cell_row; reflexivity).
  rewrite alter_cell_row.
  rewrite bind_run. unfold add_picture at 1. rewrite bind_run.
  unfold read_image at 1. rewrite lookup_insert_eq, ret_run.
  rewrite bind_run; erewrite update_cell_paragraph_focus
    by first [rewrite get_cell_row; reflexivity | reflexivity].
  rewrite alter_cell_row.
  rewrite bind_run; erewrite update_cell_focus by (rewrite get_cell_row; reflexivity).
  rewrite alter_cell_row.
  rewrite bind_run; erewrite update_cell_focus by (rewrite get_cell_row; reflexivity).
  rewrite alter_cell_row.
  reflexivity.
Qed.

Lemma experiment_rows_focus secs pre st af post : ∀ exps idx A qrs fs,
  length A = idx + 1 →
  experiment_rows (length pre) idx exps
    (focus secs pre (Build_Table st af (A ++ replicate (length exps) blank_row)) post,
     qrs) fs
  = match encode_all exps with
    | (imgs, Some e) => (inl e, stage_files idx imgs fs)
    | (imgs, None) =>
        (inr (focus secs pre
                (Build_Table st af (A ++ experiment_table_rows idx exps imgs)) post,
              qrs ++ (qr_filename <$> seq idx (length exps))),
         stage_files idx imgs fs)
    end.
Proof.
  induction exps as [|exp exps IH]; intros idx A qrs fs HA.
  - cbn. by rewrite !app_nil_r.
  - cbn [length replicate experiment_rows encode_all]. rewrite bind_run.
    rewrite experiment_row_focus by done.
    destruct (encode_row exp) as [e|img]; [done|].
    rewrite (cons_middle _ A), app_assoc.
    rewrite IH by (rewrite length_app; cbn; lia).
    destruct (encode_all exps) as [imgs [e|]]; [done|].
    cbn [experiment_table_rows stage_files seq fmap list_fmap].
    by rewrite <- !app_assoc.
Qed.

Lemma encode_all_length exps imgs :
  encode_all exps = (imgs, None) → length imgs = length exps.
Proof.
  revert imgs. induction exps as [|exp exps IH]; intros imgs; cbn.
  - by intros [= <-].
  - destruct (encode_row _); [done|].
    destruct (encode_all exps) as [imgs' err]. intros [= <- ->].
    cbn. f_equal. by apply IH.
Qed.

Lemma length_experiment_table_rows : ∀ exps imgs idx,
  length imgs = length exps →
  length (experiment_table_rows idx exps imgs) = length exps.
Proof.
  induction exps as [|exp exps IH]; intros [|img imgs] idx Hl; try done.
  cbn. f_equal. apply IH. by injection Hl.
Qed.

Lemma remove_qr_images_run : ∀ qrs fs,
  remove_qr_images qrs fs = (inr (), remove_all qrs fs).
Proof.
  induction qrs as [|p qrs IH]; intros fs; [done|].
  cbn [remove_qr_images remove_all foldl]. rewrite bind_run.
  unfold path_exists at 1. rewrite bind_run.
  destruct (fs !! p) as [d|] eqn:E.
  - rewrite bool_decide_eq_true_2 by done. unfold os_remove. rewrite E.
    apply IH.
  - rewrite bool_decide_eq_false_2 by (by intros [? ?]).
    rewrite ret_run, (delete_id fs p) by done. apply IH.
Qed.

Lemma remove_all_lookup : ∀ paths fs p,
  remove_all paths fs !! p = if bool_decide (p ∈ paths) then None else fs !! p.
Proof.
  induction paths as [|q paths IH]; intros fs p; [done|].
  cbn [remove_all foldl]. fold (remove_all paths (delete q fs)). rewrite IH.
  destruct (decide (p = q)) as [->|Hne].
  - rewrite lookup_delete_eq. rewrite (bool_decide_eq_true_2 (q ∈ q :: paths)) by left.
    by destruct (bool_decide _).
  - rewrite lookup_delete_ne by done.
    rewrite (bool_decide_ext (p ∈ q :: paths) (p ∈ paths)); [done|].
    rewrite elem_of_cons. split; [by intros [->|?] | by right].
Qed.

Lemma add_logo_run : ∀ names doc fs,
  add_logo names doc fs
  = (match find_logo names fs with
     | inl e => inl e
     | inr None => inr (doc, false)
     | inr (Some img) => inr (add_paragraph (logo_paragraph img) doc, true)
     end, fs).
Proof.
  induction names as [|name names IH]; intros doc fs; [done|].
  cbn [add_logo find_logo]. rewrite bind_run. unfold path_exists at 1.
  destruct (fs !! PyStr.path_join base_dir name) as [d|] eqn:E.
  - rewrite bool_decide_eq_true_2 by done.
    rewrite bind_run. unfold add_picture. rewrite bind_run. unfold read_image.
    rewrite E. by destruct d.
  - rewrite bool_decide_eq_false_2 by (by intros [? ?]). apply IH.
Qed.

(** From [add_table] to the end of the experiments loop, with what follows
    as the continuation [k]. *)
Lemma experiment_table_run {B} (data : RecordData) (doc : Document)
    (k : Document * list string → M B) (fs : Files) :
  (let '(doc', table) := add_table (length (experiments data) + 1) 6 doc in
   fill_headers table 0 headers
     (alter_table table
        (λ tb, {| style := Some "Table Grid"; autofit := autofit tb;
                  rows := rows tb |}) doc') ≫= λ doc,
   set_widths table 0 widths doc ≫= λ doc,
   experiment_rows table 0 (experiments data) (doc, []) ≫= k) fs
  = match encode_all (experiments data) with
    | (imgs, Some e) => (inl e, stage_files 0 imgs fs)
    | (imgs, None) =>
        k (focus (sections doc) (body doc) (experiment_table data imgs) [],
           qr_filenames (length (experiments data)))
          (stage_files 0 imgs fs)
    end.
Proof.
  destruct doc as [secs pre]. unfold add_table. cbn [body sections].
  change {| sections := secs;
            body := pre ++ [BTable (new_table (length (experiments data) + 1) 6)] |}
    with (focus secs pre (new_table (length (experiments data) + 1) 6) []).
  rewrite alter_table_focus. unfold new_table. cbn [style autofit rows].
  rewrite Nat.add_1_r. cbn [replicate].
  rewrite bind_run, fill_headers_focus.
  rewrite bind_run, set_widths_focus.
  2:{ intros row [->|Hrow%elem_of_replicate]%elem_of_cons; [done|].
      by destruct Hrow as [-> _]. }
  rewrite fmap_cons, fmap_replicate.
  change (apply_widths 0 widths [new_cell; new_cell; new_cell; new_cell; new_cell; new_cell])
    with blank_row.
  rewrite bind_run.
  rewrite (experiment_rows_focus secs pre _ _ [] (experiments data) 0
             [apply_widths 0 widths header_row] [] fs) by done.
  by destruct (encode_all (experiments data)) as [imgs [e|]].
Qed.

Lemma add_paragraph_focus secs pre tb post p :
  add_paragraph p (focus secs pre tb post) = focus secs pre tb (post ++ [BParagraph p]).
Proof. unfold add_paragraph, focus; cbn. by rewrite <- app_assoc. Qed.

(** The handler body, run: the logo loop decides first, then the text of
    the title, then the experiments loop, then the footer texts and the
    save; a completed build leaves the saved document and has removed the
    staged code images, a build stopped after the loop has started leaves
    the code images staged so far. *)
Theorem generate_docx_body_run (data : RecordData) (fs : Files) :
  generate_docx_body data fs
  = match find_logo logo_files fs with
    | inl e => (inl e, fs)
    | inr logo =>
        match text_error (course_title data) with
        | Some e => (inl e, fs)
        | None =>
            match encode_all (experiments data) with
            | (imgs, Some e) => (inl e, stage_files 0 imgs fs)
            | (imgs, None) =>
                match finish_error data with
                | Some e => (inl e, stage_files 0 imgs fs)
                | None =>
                    (inr (FileResponse (output_filename data) (output_filename data)
                                       docx_media_type),
                     remove_all (qr_filenames (length (experiments data)))
                       (<[output_filename data
                          := DocxFile (document_of data logo imgs)]>
                          (stage_files 0 imgs fs)))
                end
            end
        end
    end.
Proof.
  unfold generate_docx_body. rewrite bind_run, add_logo_run.
  destruct (find_logo logo_files fs) as [e|logo]; [done|].
  assert (∀ doc0 imgs,
    sections doc0 = [ set_margins {| top_margin := None; bottom_margin := None;
                                     left_margin := None; right_margin := None |} ] →
    body doc0 ++ [BTable (experiment_table data imgs)]
      = logo_blocks logo ++
        [ BParagraph {| alignment := Some CENTER;
                        runs := [title_run (course_title data)] |};
          BParagraph new_paragraph;
          BTable (experiment_table data imgs) ] →
    (λ '(doc, qr_images),
       let doc := add_paragraph new_paragraph doc in
       let doc := add_paragraph new_paragraph doc in
       let doc := add_paragraph {| alignment := None;
                                   runs := [bold_run confirmation_text] |} doc in
       let doc := add_paragraph new_paragraph doc in
       let '(doc, details_table) := add_table 2 2 doc in
       let doc := alter_table details_table
                    (λ tb, {| style := style tb; autofit := Some false;
                              rows := rows tb |}) doc in
       check_text ("Name: " +:+ student_name data) ≫= λ _,
       update_cell_paragraph details_table 0 0 0
         (add_run (size_11_run ("Name: " +:+ student_name data))) doc ≫= λ doc,
       check_text ("Register Number: " +:+ register_number data) ≫= λ _,
       update_cell_paragraph details_table 0 1 0
         (λ p, set_alignment RIGHT
                 (add_run (size_11_run ("Register Number: " +:+ register_number data)) p))
         doc ≫= λ doc,
       save_document (output_filename data) (DocxFile doc) ≫= λ _,
       remove_qr_images qr_images ≫= λ _,
       mret (FileResponse (output_filename data) (output_filename data)
                          docx_media_type))
      (focus (sections doc0) (body doc0) (experiment_table data imgs) [],
       qr_filenames (length (experiments data)))
      (stage_files 0 imgs fs)
    = match finish_error data with
      | Some e => (inl e, stage_files 0 imgs fs)
      | None =>
          (inr (FileResponse (output_filename data) (output_filename data)
                             docx_media_type),
           remove_all (qr_filenames (length (experiments data)))
             (<[output_filename data := DocxFile (document_of data logo imgs)]>
                (stage_files 0 imgs fs)))
      end) as Htail.
  { intros [secs pre] imgs Hsecs Hbody. cbn [sections body] in *. cbn beta iota zeta.
    rewrite !add_paragraph_focus. unfold add_table.
    unfold focus. cbn [body sections].
    match goal with
    | |- context [ {| sections := secs; body := ?b ++ [BTable (new_table 2 2)] |} ] =>
        change {| sections := secs; body := b ++ [BTable (new_table 2 2)] |}
          with (focus secs b (new_table 2 2) [])
    end.
    rewrite alter_table_focus.
    unfold finish_error, footer_texts. cbn [first_error].
    rewrite bind_run. unfold check_text at 1.
    destruct (text_error ("Name: " +:+ student_name data)) as [e|]; [done|].
    rewrite ret_run.
    rewrite bind_run; erewrite update_cell_paragraph_focus by reflexivity.
    rewrite bind_run. unfold check_text at 1.
    destruct (text_error ("Register Number: " +:+ register_number data)) as [e|];
      [done|].
    rewrite ret_run.
    rewrite bind_run; erewrite update_cell_paragraph_focus by reflexivity.
    rewrite bind_run. unfold save_document at 1.
    destruct (save_error (output_filename data)) as [e|]; [done|].
    unfold write_file at 1.
    rewrite bind_run, remove_qr_images_run, ret_run.
    do 4 f_equal. unfold focus, document_of. rewrite Hsecs. f_equal.
    rewrite (cons_middle (BTable (experiment_table data imgs)) pre), app_assoc, Hbody.
    rewrite <- !app_assoc. reflexivity. }
  destruct logo as [img|]; cbn beta iota zeta.
  - rewrite bind_run. unfold check_text at 1.
    destruct (text_error (course_title data)) as [e|]; [done|]. rewrite ret_run.
    rewrite experiment_table_run.
    destruct (encode_all (experiments data)) as [imgs [e|]]; [done|].
    by apply Htail.
  - rewrite bind_run. unfold check_text at 1.
    destruct (text_error (course_title data)) as [e|]; [done|]. rewrite ret_run.
    rewrite experiment_table_run.
    destruct (encode_all (experiments data)) as [imgs [e|]]; [done|].
    by apply Htail.
Qed.

(* ===================================================================== *)
(** ** Properties of the two endpoints                                    *)
(* ===================================================================== *)


(** [generate_docx] answers with what its body returns; whatever the body
    raises comes out as a 500. *)
Lemma generate_docx_ok_iff (data : RecordData) (fs fs' : Files) (resp : Response) :
  generate_docx data fs = (inr resp, fs')
  ↔ generate_docx_body data fs = (inr resp, fs').
Proof.
  unfold generate_docx, try_except.
  destruct (generate_docx_body data fs) as [[e|r] fs0]; split; congruence.
Qed.

Lemma generate_docx_ok_inv (data : RecordData) (fs fs' : Files) (resp : Response) :
  generate_docx data fs = (inr resp, fs') →
  ∃ logo imgs,
    find_logo logo_files fs = inr logo ∧
    encode_all (experiments data) = (imgs, None) ∧
    resp = FileResponse (output_filename data) (output_filename data) docx_media_type ∧
    fs' = built_files data logo imgs fs.
Proof.
  rewrite generate_docx_ok_iff, generate_docx_body_run.
  destruct (find_logo logo_files fs) as [e|logo]; [done|].
  destruct (text_error (course_title data)) as [e|]; [done|].
  destruct (encode_all (experiments data)) as [imgs [e|]]; [done|].
  destruct (finish_error data) as [e|]; [done|].
  intros [= <- <-]. by exists logo, imgs.
Qed.

Lemma encode_row_ok (exp : Experiment) (img : Image) :
  encode_row exp = inr img
  ↔ first_error (row_texts exp) = None ∧ create_qr_code (github exp) 150 = inr img.
Proof.
  unfold encode_row. destruct (first_error (row_texts exp)); [|tauto].
  split; [done | by intros [? _]].
Qed.

Lemma encode_all_accepted : ∀ exps,
  Forall (λ exp, first_error (row_texts exp) = None ∧ encodable (github exp)) exps →
  ∃ imgs, encode_all exps = (imgs, None).
Proof.
  induction exps as [|exp exps IH]; intros Hall; [by eexists|].
  apply Forall_cons in Hall as [[Htexts [img Himg]] Hrest].
  destruct (IH Hrest) as [imgs Himgs].
  cbn [encode_all]. rewrite (proj2 (encode_row_ok exp img)) by done.
  rewrite Himgs. by eexists.
Qed.

Lemma encode_all_None_accepted : ∀ exps imgs,
  encode_all exps = (imgs, None) →
  Forall (λ exp, first_error (row_texts exp) = None ∧ encodable (github exp)) exps.
Proof.
  induction exps as [|exp exps IH]; intros imgs; [done|].
  cbn [encode_all].
  destruct (encode_row exp) as [e|img] eqn:Himg; [done|].
  destruct (encode_all exps) as [imgs' err]. intros [= <- ->].
  apply encode_row_ok in Himg as [Htexts Himg].
  constructor; [split; [done | by eexists] | by eapply IH].
Qed.

Lemma finish_error_None (data : RecordData) :
  finish_error data = None
  ↔ first_error (footer_texts data) = None ∧ save_error (output_filename data) = None.
Proof.
  unfold finish_error. destruct (first_error (footer_texts data)); [|tauto].
  split; [done | by intros [? _]].
Qed.

(** A completed build has passed every check. *)
Lemma generate_docx_ok_accepted (data : RecordData) (fs fs' : Files) (resp : Response) :
  generate_docx data fs = (inr resp, fs') → accepted data.
Proof.
  rewrite generate_docx_ok_iff, generate_docx_body_run.
  destruct (find_logo logo_files fs) as [e|logo]; [done|].
  destruct (text_error (course_title data)) as [e|] eqn:Htitle; [done|].
  destruct (encode_all (experiments data)) as [imgs [e|]] eqn:Himgs; [done|].
  destruct (finish_error data) as [e|] eqn:Hfinish; [done|].
  intros _. apply finish_error_None in Hfinish as [Hfooter Hsave].
  split; [done|]. split; [by eapply encode_all_None_accepted|]. by split.
Qed.

Lemma generate_docx_completes (data : RecordData) (fs : Files) (logo : option Image) :
  find_logo logo_files fs = inr logo →
  accepted data →
  ∃ imgs,
    encode_all (experiments data) = (imgs, None) ∧
    generate_docx data fs
    = (inr (FileResponse (output_filename data) (output_filename data)
                         docx_media_type),
       built_files data logo imgs fs).
Proof.
  intros Hlogo (Htitle & [imgs Himgs]%encode_all_accepted & Hfooter & Hsave).
  exists imgs. split; [done|].
  apply generate_docx_ok_iff.
  rewrite generate_docx_body_run, Hlogo, Htitle, Himgs.
  by rewrite (proj2 (finish_error_None data)).
Qed.

Lemma output_filename_not_qr (data : RecordData) (n : nat) :
  output_filename data ∉ qr_filenames n.
Proof.
  unfold qr_filenames. intros (i & Heq & _)%list_elem_of_fmap.
  apply (f_equal PyStr.last_char) in Heq. revert Heq.
  unfold output_filename, qr_filename.
  assert (∀ s t : string, t ≠ "" → s +:+ t ≠ "") as Hne.
  { intros [|c s] t Ht; [done | by rewrite PyStrFacts.app_cons]. }
  rewrite (PyStrFacts.last_char_app "/tmp/") by (by apply Hne).
  rewrite (PyStrFacts.last_char_app (register_number data)) by done.
  rewrite (PyStrFacts.last_char_app "/tmp/qr_") by (by apply Hne).
  rewrite (PyStrFacts.last_char_app (PyStr.str i)) by done.
  discriminate.
Qed.

Lemma built_files_saved data logo imgs fs :
  saved_document (built_files data logo imgs fs) (output_filename data)
  = Some (document_of data logo imgs).
Proof.
  unfold saved_document, built_files. rewrite remove_all_lookup.
  rewrite bool_decide_eq_false_2 by apply output_filename_not_qr.
  by rewrite lookup_insert_eq.
Qed.

Lemma saved_document_lookup (fs : Files) (path : string) (doc : Document) :
  saved_document fs path = Some doc → fs !! path = Some (DocxFile doc).
Proof.
  unfold saved_document. destruct (fs !! path) as [[]|]; try done.
  by intros [= ->].
Qed.

Lemma tables_document_of data logo imgs :
  tables (document_of data logo imgs)
  = [experiment_table data imgs; details_table data].
Proof. by destruct logo. Qed.

Lemma header_row_texts :
  cell_text <$> apply_widths 0 widths header_row
  = ["Exp"; "Date"; "Name of The Experiment"; "QR Code"; "Mark"; "Signature"].
Proof. reflexivity. Qed.

Lemma experiment_table_rows_lookup : ∀ exps imgs idx i exp,
  length imgs = length exps → exps !! i = Some exp →
  ∃ img, imgs !! i = Some img ∧
         experiment_table_rows idx exps imgs !! i
         = Some (experiment_cells (idx + i) exp img).
Proof.
  induction exps as [|e exps IH]; intros [|img imgs] idx i exp Hl Hi; try done.
  destruct i as [|i].
  - injection Hi as ->. exists img. by rewrite Nat.add_0_r.
  - destruct (IH imgs (S idx) i exp) as (img' & Himg & Hrow);
      [by injection Hl | exact Hi |].
    exists img'. split; [exact Himg|].
    etrans; [exact Hrow|]. do 2 f_equal. lia.
Qed.

Lemma experiment_table_rows_width : ∀ exps imgs idx,
  Forall (λ row, length row = 6) (experiment_table_rows idx exps imgs).
Proof.
  induction exps as [|e exps IH]; intros [|img imgs] idx; cbn; try done.
  constructor; [done | apply IH].
Qed.

Lemma encode_all_lookup : ∀ exps imgs i exp img,
  encode_all exps = (imgs, None) → exps !! i = Some exp → imgs !! i = Some img →
  create_qr_code (github exp) 150 = inr img.
Proof.
  induction exps as [|e exps IH]; intros imgs i exp img; [done|].
  cbn [encode_all]. destruct (encode_row e) as [x|im] eqn:E; [done|].
  destruct (encode_all exps) as [imgs' err]. intros [= <- ->].
  apply encode_row_ok in E as [_ E].
  destruct i as [|i]; cbn.
  - by intros [= <-] [= <-].
  - by apply IH.
Qed.


(** C1. Whenever a build completes, the saved document has two tables;
    the experiment table, the first of them, has one row per experiment
    plus one, six cells in every row, and the six fixed labels, in order,
    in its first row. *)
Theorem C1_experiment_table_shape (data : RecordData) (fs fs' : Files)
    (resp : Response) :
  generate_docx data fs = (inr resp, fs') →
  ∃ doc tb details,
    saved_document fs' (output_filename data) = Some doc ∧
    tables doc = [tb; details] ∧
    length (rows tb) = length (experiments data) + 1 ∧
    Forall (λ row, length row = 6) (rows tb) ∧
    cell_text <$> default [] (head (rows tb))
    = ["Exp"; "Date"; "Name of The Experiment"; "QR Code"; "Mark"; "Signature"].
Proof.
  intros (logo & imgs & _ & Himgs & _ & ->)%generate_docx_ok_inv.
  exists (document_of data logo imgs), (experiment_table data imgs), (details_table data).
  split; [apply built_files_saved|]. split; [apply tables_document_of|].
  apply encode_all_length in Himgs.
  split; [|split].
  - cbn. rewrite length_experiment_table_rows by done. lia.
  - constructor; [done | apply experiment_table_rows_width].
  - exact header_row_texts.
Qed.

(** C4. In a completed build, the first cell of the row of experiment [i]
    (counted from 0) reads [str(i + 1).zfill(2)]: a numeral of at least two
    characters whose value is [i + 1], a zero and the digit below ten, the
    plain numeral from ten on, exactly two characters below a hundred; so
    row 1 reads 01, row 12 reads 12 and row 100 reads 100. *)
Theorem C4_sequence_number_cell (data : RecordData) (fs fs' : Files)
    (resp : Response) (i : nat) (exp : Experiment) :
  generate_docx data fs = (inr resp, fs') →
  experiments data !! i = Some exp →
  ∃ doc tb row cell,
    saved_document fs' (output_filename data) = Some doc ∧
    head (tables doc) = Some tb ∧
    rows tb !! (i + 1) = Some row ∧
    row !! 0 = Some cell ∧
    cell_text cell = PyStr.zfill 2 (PyStr.str (i + 1)) ∧
    PyStr.int (cell_text cell) = Some (i + 1) ∧
    2 ≤ String.length (cell_text cell) ∧
    (i + 1 < 10 → cell_text cell = String "0" (PyStr.str (i + 1))) ∧
    (10 ≤ i + 1 → cell_text cell = PyStr.str (i + 1)) ∧
    (i + 1 < 100 → String.length (cell_text cell) = 2) ∧
    PyStr.zfill 2 (PyStr.str 1) = "01" ∧
    PyStr.zfill 2 (PyStr.str 12) = "12" ∧
    PyStr.zfill 2 (PyStr.str 100) = "100".
Proof.
  intros (logo & imgs & _ & Himgs & _ & ->)%generate_docx_ok_inv Hexp.
  destruct (experiment_table_rows_lookup (experiments data) imgs 0 i exp)
    as (img & _ & Hrow); [by apply encode_all_length | done |].
  exists (document_of data logo imgs), (experiment_table data imgs),
         (experiment_cells i exp img), 
         (text_cell (Some CENTER) [new_run (PyStr.zfill 2 (PyStr.str (i + 1)))] (Inches 50)).
  split; [apply built_files_saved|].
  split; [by rewrite tables_document_of|].
  split; [by rewrite Nat.add_1_r|].
  split; [done|].
  assert (cell_text (text_cell (Some CENTER)
            [new_run (PyStr.zfill 2 (PyStr.str (i + 1)))] (Inches 50))
          = PyStr.zfill 2 (PyStr.str (i + 1))) as ->.
  { unfold cell_text, paragraph_text; cbn. apply PyStrFacts.app_nil_r. }
  split; [done|]. rewrite PyStrFacts.zfill_2_str.
  destruct (i + 1 <? 10) eqn:E.
  - apply Nat.ltb_lt in E.
    split_and!; try done; try lia.
    + change (PyStr.int_acc 0 (PyStr.str (i + 1)) = Some (i + 1)).
      apply PyStrFacts.int_acc_str.
    + cbn [String.length]. pose proof (PyStrFacts.length_str_pos (i + 1)). lia.
    + intros _. cbn [String.length]. by rewrite PyStrFacts.length_str_small.
  - apply Nat.ltb_ge in E.
    pose proof (PyStrFacts.length_str_large (i + 1) E) as Hlen.
    split_and!; try done; try lia.
    + unfold PyStr.int. destruct (PyStr.str (i + 1)) eqn:Es; [cbn in Hlen; lia|].
      rewrite <- Es. apply PyStrFacts.int_acc_str.
    + intros Hlt. apply PyStrFacts.length_str_two. lia.
Qed.

(** C5 (amended). With no experiments, the build completes, and the
    experiment table of the saved document is its header row alone,
    whenever nothing else stops it: the logo is absent or a readable
    image, python-docx takes the course title and the two footer texts,
    and the output document can be written. *)
Theorem C5_empty_experiments (data : RecordData) (fs : Files) (logo : option Image) :
  experiments data = [] →
  find_logo logo_files fs = inr logo →
  text_error (course_title data) = None →
  text_error ("Name: " +:+ student_name data) = None →
  text_error ("Register Number: " +:+ register_number data) = None →
  save_error ("/tmp/" +:+ register_number data +:+ "_Lab_Record.docx") = None →
  ∃ fs' doc tb details header,
    generate_docx data fs
    = (inr (FileResponse (output_filename data) (output_filename data)
                         docx_media_type), fs') ∧
    saved_document fs' (output_filename data) = Some doc ∧
    tables doc = [tb; details] ∧
    rows tb = [header] ∧
    cell_text <$> header
    = ["Exp"; "Date"; "Name of The Experiment"; "QR Code"; "Mark"; "Signature"].
Proof.
  intros Hexps Hlogo Htitle Hname Hreg Hsave.
  destruct (generate_docx_completes data fs logo Hlogo) as (imgs & Himgs & Hrun).
  { split; [done|]. rewrite Hexps. split; [done|]. split; [|done].
    unfold footer_texts. cbn [first_error]. by rewrite Hname, Hreg. }
  rewrite Hexps in Himgs. injection Himgs as <-.
  exists (built_files data logo [] fs), (document_of data logo []),
         (experiment_table data []), (details_table data),
         (apply_widths 0 widths header_row).
  split; [done|]. split; [apply built_files_saved|].
  split; [apply tables_document_of|].
  split; [|exact header_row_texts].
  unfold experiment_table. cbn [rows]. by rewrite Hexps.
Qed.


Lemma stage_files_lookup_other : ∀ imgs idx (fs : Files) p,
  (∀ i, p ≠ qr_filename i) → stage_files idx imgs fs !! p = fs !! p.
Proof.
  induction imgs as [|img imgs IH]; intros idx fs p Hp; [done|].
  cbn [stage_files]. rewrite IH by done. by rewrite lookup_insert_ne.
Qed.

(** C8 (amended). A completed build has removed every code image it staged
    and has left the output document in place. *)
Theorem C8_staged_images_removed (data : RecordData) (fs fs' : Files)
    (resp : Response) :
  generate_docx data fs = (inr resp, fs') →
  (∀ i, i < length (experiments data) → fs' !! qr_filename i = None) ∧
  is_Some (saved_document fs' (output_filename data)).
Proof.
  intros (logo & imgs & _ & Himgs & _ & ->)%generate_docx_ok_inv.
  split.
  - intros i Hi. unfold built_files. rewrite remove_all_lookup.
    rewrite bool_decide_eq_true_2; [done|].
    apply list_elem_of_fmap. exists i. split; [done|].
    apply elem_of_seq. lia.
  - rewrite built_files_saved. by eexists.
Qed.

Lemma logo_uploaded_find (fs : Files) (logo : option Image) :
  find_logo logo_files fs = inr logo →
  logo_uploaded fs = match logo with Some _ => true | None => false end.
Proof.
  unfold logo_uploaded, logo_files. cbn [existsb find_logo].
  change ("college_logo." +:+ "png") with "college_logo.png".
  change ("college_logo." +:+ "jpg") with "college_logo.jpg".
  change ("college_logo." +:+ "jpeg") with "college_logo.jpeg".
  destruct (fs !! PyStr.path_join base_dir "college_logo.png") as [[]|];
    [by intros [= <-] | done | done |].
  destruct (fs !! PyStr.path_join base_dir "college_logo.jpg") as [[]|];
    [by intros [= <-] | done | done |].
  destruct (fs !! PyStr.path_join base_dir "college_logo.jpeg") as [[]|];
    [by intros [= <-] | done | done |].
  by intros [= <-].
Qed.

(** C9. Two completed builds of the same record, on file systems that
    agree on whether a logo is there, answer alike and save documents with
    the same structure: the same elements, text and styling, the pixels of
    the pictures apart. When the logo loop finds the same image in both,
    the two documents are equal. *)
Theorem C9_same_record_same_structure (data : RecordData)
    (fs1 fs2 fs1' fs2' : Files) (resp1 resp2 : Response) :
  generate_docx data fs1 = (inr resp1, fs1') →
  generate_docx data fs2 = (inr resp2, fs2') →
  logo_uploaded fs1 = logo_uploaded fs2 →
  ∃ doc1 doc2,
    saved_document fs1' (output_filename data) = Some doc1 ∧
    saved_document fs2' (output_filename data) = Some doc2 ∧
    strip_images doc1 = strip_images doc2 ∧
    length (body doc1) = length (body doc2) ∧
    resp1 = resp2 ∧
    (find_logo logo_files fs1 = find_logo logo_files fs2 → doc1 = doc2).
Proof.
  intros (logo1 & imgs1 & Hl1 & Hi1 & -> & ->)%generate_docx_ok_inv.
  intros (logo2 & imgs2 & Hl2 & Hi2 & -> & ->)%generate_docx_ok_inv.
  rewrite (logo_uploaded_find fs1 logo1), (logo_uploaded_find fs2 logo2) by done.
  intros Hsame. rewrite Hi1 in Hi2. injection Hi2 as <-.
  exists (document_of data logo1 imgs1), (document_of data logo2 imgs1).
  rewrite !built_files_saved.
  split; [done|]. split; [done|].
  split; [|split; [|split; [done|]]].
  - destruct logo1, logo2; done.
  - destruct logo1, logo2; done.
  - rewrite Hl1, Hl2. by intros [= ->].
Qed.

(** C6 (amended). The register number of an accepted record is the string
    of the body, whatever it contains, and a completed build has named and
    written its output [/tmp/<register number>_Lab_Record.docx] with that
    string taken verbatim. Validation accepts every string in its place. *)
Theorem C6_register_number_verbatim (b : RecordBody) (data : RecordData)
    (fs fs' : Files) (resp : Response) :
  validate_RecordData b = Some data →
  generate_docx data fs = (inr resp, fs') →
  body_register_number b = Some (register_number data) ∧
  resp = FileResponse ("/tmp/" +:+ register_number data +:+ "_Lab_Record.docx")
                      ("/tmp/" +:+ register_number data +:+ "_Lab_Record.docx")
                      docx_media_type ∧
  is_Some (saved_document fs'
             ("/tmp/" +:+ register_number data +:+ "_Lab_Record.docx")) ∧
  (∀ r : string,
     validate_RecordData
       {| body_course_title := body_course_title b;
          body_student_name := body_student_name b;
          body_register_number := Some r;
          body_experiments := body_experiments b |}
     = Some {| course_title := course_title data;
               student_name := student_name data;
               register_number := r;
               experiments := experiments data |}).
Proof.
  intros Hval (logo & imgs & _ & _ & -> & ->)%generate_docx_ok_inv.
  assert (is_Some (saved_document (built_files data logo imgs fs)
                     (output_filename data))) as Hsaved.
  { rewrite built_files_saved. by eexists. }
  split; [|split; [done|split; [exact Hsaved|]]].
  - unfold validate_RecordData in Hval.
    destruct b as [[c|] [s|] [r|] [bs|]]; try done. cbn in Hval.
    destruct (mapM validate_Experiment bs) as [es|]; [|done].
    cbn in Hval. by injection Hval as <-.
  - intros r'. unfold validate_RecordData in *.
    destruct b as [[c|] [s|] [r|] [bs|]]; try done. cbn in *.
    destruct (mapM validate_Experiment bs) as [es|]; [|done].
    cbn in *. by injection Hval as <-.
Qed.


Lemma respond_generate_docx_ok (data : RecordData) (fs fs' : Files) (resp : Response) :
  generate_docx data fs = (inr resp, fs') →
  respond (generate_docx data) fs = (resp, fs').
Proof. intros Hrun. unfold respond. by rewrite Hrun. Qed.

(** C3 (amended). Validation asks for the fields to be present and nothing
    of their content: an experiment with a title and a link is accepted
    whatever the two strings are, the empty link included. The accepted
    record goes to the handler with every link as it came, and in a
    completed build the code cell of every row holds the image the
    generator returned for the link of that row. *)
Theorem C3_links_taken_as_they_come (b : RecordBody) (data : RecordData)
    (fs : Files) :
  validate_RecordData b = Some data →
  post_generate_docx b fs = respond (generate_docx data) fs ∧
  (∀ bodies, body_experiments b = Some bodies →
     Forall2 (λ eb exp, body_github eb = Some (github exp))
             bodies (experiments data)) ∧
  (∀ (t g : string) (d : option string),
     validate_Experiment
       {| body_title := Some t; body_date := d; body_github := Some g |}
     = Some {| title := t; date := default "" d; github := g |}) ∧
  (∀ resp fs' i exp,
     generate_docx data fs = (inr resp, fs') →
     experiments data !! i = Some exp →
     ∃ doc tb row cell img,
       saved_document fs' (output_filename data) = Some doc ∧
       head (tables doc) = Some tb ∧
       rows tb !! (i + 1) = Some row ∧
       row !! 3 = Some cell ∧
       create_qr_code (github exp) 150 = inr img ∧
       cell_pictures cell = [ {| pic_image := img; pic_width := Inches 75 |} ]).
Proof.
  intros Hval. split; [|split; [|split; [done|]]].
  - unfold post_generate_docx. by rewrite Hval.
  - intros bodies Hb. unfold validate_RecordData in Hval.
    destruct b as [[c|] [s|] [r|] [bs|]]; try done. cbn in Hval, Hb.
    injection Hb as ->.
    destruct (mapM validate_Experiment bodies) as [es|] eqn:Hes; [|done].
    cbn in Hval. injection Hval as <-. cbn [experiments].
    apply mapM_Some in Hes. eapply Forall2_impl; [exact Hes|].
    intros [[t|] d [g|]] exp; try done. cbn. by intros [= <-].
  - intros resp fs' i exp (logo & imgs & _ & Himgs & _ & ->)%generate_docx_ok_inv Hexp.
    destruct (experiment_table_rows_lookup (experiments data) imgs 0 i exp)
      as (img & Himg & Hrow); [by apply encode_all_length | done |].
    exists (document_of data logo imgs), (experiment_table data imgs),
           (experiment_cells i exp img),
           (text_cell (Some CENTER) [new_run ""; picture_run img (Inches 75)]
                      (Inches 80)), img.
    split; [apply built_files_saved|].
    split; [by rewrite tables_document_of|].
    split; [by rewrite Nat.add_1_r|].
    split; [done|]. split; [|done].
    by eapply encode_all_lookup.
Qed.



(** C10. An upload whose content type does not start with [image/], or
    whose file name ends in an extension other than png, jpg and jpeg, is
    answered 500 and writes nothing. When the content type is there, what
    the body raised is the 400 rejection, which the handler's own
    [except] clause turned into the 500. *)
Theorem C10_rejected_upload_answers_500 (f : UploadFile) (fs : Files) :
  (∃ ct, content_type f = Some ct ∧ PyStr.startswith "image/" ct = false)
  ∨ (∃ name, filename f = Some name ∧
             PyStr.lower (PyStr.split_last "." name) ∉ logo_extensions) →
  ∃ e,
    upload_logo_body f fs = (inl e, fs) ∧
    post_upload_logo f fs
    = (ErrorResponse 500 ("Error uploading logo: " +:+ exn_str e), fs) ∧
    status (post_upload_logo f fs).1 = 500 ∧
    status (post_upload_logo f fs).1 ≠ 400 ∧
    (is_Some (content_type f) → ∃ d, e = HTTPException 400 d).
Proof.
  intros Hbad.
  assert (∃ e, upload_logo_body f fs = (inl e, fs) ∧
               (is_Some (content_type f) → ∃ d, e = HTTPException 400 d))
    as (e & Hbody & He).
  { unfold upload_logo_body.
    destruct (content_type f) as [ct|] eqn:Hct.
    - cbn [or_raise]. rewrite bind_run, ret_run.
      destruct (PyStr.startswith "image/" ct) eqn:Himg; cbn [negb].
      + destruct Hbad as [(ct' & [= <-] & Hno)|(name & Hname & Hext)];
          [congruence|].
        rewrite Hname. cbn [or_raise]. rewrite bind_run, ret_run.
        rewrite bool_decide_eq_false_2 by done. cbn [negb].
        eexists. split; [reflexivity|]. by eexists.
      + eexists. split; [reflexivity|]. by eexists.
    - cbn [or_raise]. rewrite bind_run. unfold raise.
      eexists. split; [reflexivity|]. by intros [? ?]. }
  exists e. split; [done|].
  assert (post_upload_logo f fs
          = (ErrorResponse 500 ("Error uploading logo: " +:+ exn_str e), fs)) as Hpost.
  { unfold post_upload_logo, respond, upload_logo, try_except. by rewrite Hbody. }
  rewrite Hpost. by split_and!.
Qed.

End Properties.

(* ===================================================================== *)
(** ** Further properties of the handlers                                 *)
(* ===================================================================== *)

Module PathFacts.
Import PyStr PyStrFacts.

Lemma app_assoc (a b c : string) : (a +:+ b) +:+ c = a +:+ (b +:+ c).
Proof. induction a as [|x a IH]; [done|]. by rewrite !app_cons, IH. Qed.

Lemma ends_with_app (suffix a s : string) :
  ends_with suffix s → ends_with suffix (a +:+ s).
Proof. intros [x ->]. exists (a +:+ x). by rewrite app_assoc. Qed.

Lemma app_suffix_inj (a b x y : string) :
  a +:+ x = b +:+ y → String.length x = String.length y → x = y.
Proof.
  revert b. induction a as [|c a IH]; intros [|d b] Heq Hlen.
  - done.
  - rewrite app_nil_l in Heq. subst x.
    rewrite app_cons in Hlen. cbn [String.length] in Hlen.
    rewrite length_app in Hlen. lia.
  - rewrite app_nil_l in Heq. subst y.
    rewrite app_cons in Hlen. cbn [String.length] in Hlen.
    rewrite length_app in Hlen. lia.
  - rewrite !app_cons in Heq. injection Heq as _ Heq. by apply (IH b).
Qed.

(** Two suffixes of one string that have the same length are equal. *)
Lemma ends_with_agree (u v s : string) :
  ends_with u s → ends_with v s → String.length u = String.length v → u = v.
Proof. intros [x ->] [y Hy] Hlen. by apply (app_suffix_inj x y). Qed.

Lemma path_join_relative (a b : string) :
  startswith "/" b = false →
  path_join a b = a +:+ b ∨ path_join a b = a +:+ "/" +:+ b.
Proof. unfold path_join. intros ->. destruct (_ || _); auto. Qed.

Lemma path_join_ends_with (suffix a b : string) :
  startswith "/" b = false → ends_with suffix b →
  ends_with suffix (path_join a b).
Proof.
  intros Hrel Hsuf. destruct (path_join_relative a b Hrel) as [-> | ->].
  - by apply ends_with_app.
  - by do 2 apply ends_with_app.
Qed.

(** Joining two relative names to one directory keeps them apart. *)
Lemma path_join_inj (a b c : string) :
  startswith "/" b = false → startswith "/" c = false →
  path_join a b = path_join a c → b = c.
Proof.
  unfold path_join. intros -> ->. destruct (_ || _); intros Heq.
  - by apply (inj (String.app a)) in Heq.
  - apply (inj (String.app a)) in Heq. by apply (inj (String.app "/")) in Heq.
Qed.

Lemma str_last_digit (n : nat) :
  ∃ s d, d < 10 ∧ str n = s +:+ String (digit_char d) "".
Proof.
  destruct (decide (n < 10)) as [Hn|Hn].
  - exists "", n. by rewrite str_small.
  - exists (str (n / 10)), (n mod 10). split.
    + apply Nat.mod_upper_bound. lia.
    + apply str_large. lia.
Qed.

Lemma str_inj (n m : nat) : str n = str m → n = m.
Proof.
  intros Heq. pose proof (int_acc_str n) as Hn.
  rewrite Heq, int_acc_str in Hn. by injection Hn.
Qed.

End PathFacts.

Section More.
Context `{Platform}.
Import PathFacts.

Lemma qr_filename_ends (i : nat) :
  ∃ d, d < 10 ∧ ends_with (String (PyStr.digit_char d) ".png") (qr_filename i).
Proof.
  destruct (str_last_digit i) as (s & d & Hd & Hs). exists d. split; [done|].
  exists ("/tmp/qr_" +:+ s). unfold qr_filename. rewrite Hs.
  by rewrite !app_assoc.
Qed.

Lemma output_filename_ends (data : RecordData) :
  ends_with ".docx" (output_filename data).
Proof.
  exists ("/tmp/" +:+ register_number data +:+ "_Lab_Record").
  unfold output_filename. by rewrite !app_assoc.
Qed.

Lemma logo_file_ends (name : string) :
  name ∈ logo_files →
  ends_with "o.png" (PyStr.path_join base_dir name)
  ∨ ends_with ".jpg" (PyStr.path_join base_dir name)
  ∨ ends_with ".jpeg" (PyStr.path_join base_dir name).
Proof.
  unfold logo_files. rewrite !elem_of_cons, elem_of_nil.
  intros [->|[->|[->|[]]]].
  - left. apply path_join_ends_with; [done|]. by exists "college_log".
  - right; left. apply path_join_ends_with; [done|]. by exists "college_logo".
  - right; right. apply path_join_ends_with; [done|]. by exists "college_logo".
Qed.

Lemma digit_char_cases (d : nat) :
  d < 10 → PyStr.digit_char d ≠ "o"%char ∧ PyStr.digit_char d ≠ "."%char.
Proof. intros Hd. do 10 (destruct d as [|d]; [done|]). lia. Qed.

Lemma logo_file_not_qr (name : string) (i : nat) :
  name ∈ logo_files → PyStr.path_join base_dir name ≠ qr_filename i.
Proof.
  intros Hname Heq. destruct (qr_filename_ends i) as (d & Hd & Hqr).
  rewrite <- Heq in Hqr. destruct (digit_char_cases d Hd) as [Ho Hdot].
  destruct (logo_file_ends name Hname) as [Hl|[Hl|Hl]].
  - by pose proof (ends_with_agree _ _ _ Hl Hqr eq_refl) as [= ?].
  - destruct Hqr as [x Hx].
    assert (ends_with ".png" (PyStr.path_join base_dir name)) as Hp.
    { exists (x +:+ String (PyStr.digit_char d) ""). by rewrite Hx, app_assoc. }
    by pose proof (ends_with_agree _ _ _ Hl Hp eq_refl).
  - by pose proof (ends_with_agree _ _ _ Hl Hqr eq_refl) as [= ?].
Qed.

Lemma logo_file_not_output (name : string) (data : RecordData) :
  name ∈ logo_files → PyStr.path_join base_dir name ≠ output_filename data.
Proof.
  intros Hname Heq. pose proof (output_filename_ends data) as Hout.
  rewrite <- Heq in Hout.
  destruct (logo_file_ends name Hname) as [Hl|[Hl|Hl]].
  - by pose proof (ends_with_agree _ _ _ Hl Hout eq_refl).
  - destruct Hout as [x Hx].
    assert (ends_with "docx" (PyStr.path_join base_dir name)) as Hp.
    { exists (x +:+ "."). by rewrite Hx, app_assoc. }
    by pose proof (ends_with_agree _ _ _ Hl Hp eq_refl).
  - by pose proof (ends_with_agree _ _ _ Hl Hout eq_refl).
Qed.

Lemma qr_filename_inj (i j : nat) : qr_filename i = qr_filename j → i = j.
Proof.
  unfold qr_filename. intros Heq.
  apply (inj (String.app "/tmp/qr_")) in Heq.
  apply str_inj.
  assert (String.length (PyStr.str i) = String.length (PyStr.str j)) as Hlen.
  { apply (f_equal String.length) in Heq.
    rewrite !PyStrFacts.length_app in Heq. lia. }
  revert Heq Hlen. generalize (PyStr.str i) (PyStr.str j).
  induction s as [|c s IH]; intros [|c' s'] Heq Hlen; try done.
  rewrite !PyStrFacts.app_cons in Heq. injection Heq as -> Heq.
  f_equal. apply IH; [done|]. by injection Hlen.
Qed.

(** X15. The temporary files of a build have names of their own: the code
    images of different rows have different names, no code image has the
    name of the output document, and no logo file has the name of a code
    image or of the output document, whatever the register number and the
    directory of the script are. *)
Theorem temporary_names_apart (data : RecordData) (i j : nat) (name : string) :
  name ∈ logo_files →
  (qr_filename i = qr_filename j → i = j) ∧
  qr_filename i ≠ output_filename data ∧
  PyStr.path_join base_dir name ≠ qr_filename i ∧
  PyStr.path_join base_dir name ≠ output_filename data.
Proof.
  intros Hname. split_and!.
  - apply qr_filename_inj.
  - intros Heq. apply (output_filename_not_qr data (S i)).
    rewrite <- Heq. apply list_elem_of_fmap. exists i. split; [done|].
    apply elem_of_seq. lia.
  - by apply logo_file_not_qr.
  - by apply logo_file_not_output.
Qed.

Lemma stage_files_lookup_outside : ∀ imgs idx (fs : Files) p,
  (∀ i, idx ≤ i < idx + length imgs → p ≠ qr_filename i) →
  stage_files idx imgs fs !! p = fs !! p.
Proof.
  induction imgs as [|img imgs IH]; intros idx fs p Hp; [done|].
  cbn [stage_files]. rewrite IH.
  - rewrite lookup_insert_ne; [done|]. intros Heq. apply (Hp idx); [cbn; lia | done].
  - intros i Hi. apply Hp. cbn. lia.
Qed.

Lemma stage_files_lookup_staged : ∀ imgs idx (fs : Files) i img,
  imgs !! i = Some img →
  stage_files idx imgs fs !! qr_filename (idx + i) = Some (ImageFile img).
Proof.
  induction imgs as [|img0 imgs IH]; intros idx fs i img Hi; [done|].
  cbn [stage_files]. destruct i as [|i].
  - injection Hi as ->. rewrite Nat.add_0_r.
    rewrite stage_files_lookup_outside; [by rewrite lookup_insert_eq|].
    intros j Hj Heq. apply qr_filename_inj in Heq. lia.
  - replace (idx + S i) with (S idx + i) by lia. by apply IH.
Qed.

Lemma encode_all_stopped : ∀ (pre : list Experiment) (bad : Experiment)
    (post : list Experiment) (e : Exn),
  Forall (λ exp, first_error (row_texts exp) = None ∧
                 ∃ img, create_qr_code (github exp) 150 = inr img) pre →
  encode_row bad = inl e →
  ∃ imgs,
    encode_all (pre ++ bad :: post) = (imgs, Some e) ∧
    Forall2 (λ exp img, create_qr_code (github exp) 150 = inr img) pre imgs.
Proof.
  induction pre as [|exp pre IH]; intros bad post e Hpre Hbad.
  - exists []. cbn. rewrite Hbad. by split.
  - apply Forall_cons in Hpre as [[Htexts [img Himg]] Hpre].
    destruct (IH bad post e Hpre Hbad) as (imgs & Himgs & Hall).
    cbn [app encode_all].
    rewrite (proj2 (encode_row_ok exp img)) by done.
    rewrite Himgs. eexists. split; [done|]. by constructor.
Qed.

(** Whatever a build does, it writes and removes only its own temporary
    files. *)
Lemma generate_docx_frame (data : RecordData) (fs : Files) (p : string) :
  p ≠ output_filename data → (∀ i, p ≠ qr_filename i) →
  (generate_docx data fs).2 !! p = fs !! p.
Proof.
  intros Hout Hqr. unfold generate_docx, try_except.
  rewrite generate_docx_body_run.
  destruct (find_logo logo_files fs) as [e|logo]; [done|].
  destruct (text_error (course_title data)) as [e|]; [done|].
  destruct (encode_all (experiments data)) as [imgs [e|]]; cbn [snd];
    [by apply stage_files_lookup_other|].
  destruct (finish_error data) as [e|]; cbn [snd].
  - by apply stage_files_lookup_other.
  - rewrite remove_all_lookup, bool_decide_eq_false_2.
    + rewrite lookup_insert_ne by done. by apply stage_files_lookup_other.
    + intros (i & -> & _)%list_elem_of_fmap. by apply (Hqr i).
Qed.

Lemma find_logo_ext : ∀ names (fs1 fs2 : Files),
  (∀ name, name ∈ names →
     fs1 !! PyStr.path_join base_dir name = fs2 !! PyStr.path_join base_dir name) →
  find_logo names fs1 = find_logo names fs2.
Proof.
  induction names as [|name names IH]; intros fs1 fs2 Hsame; [done|].
  cbn [find_logo]. rewrite (Hsame name) by left.
  destruct (fs2 !! PyStr.path_join base_dir name) as [[]|]; try done.
  apply IH. intros n Hn. apply Hsame. by right.
Qed.

Lemma logo_uploaded_ext (fs1 fs2 : Files) :
  (∀ name, name ∈ logo_files →
     fs1 !! PyStr.path_join base_dir name = fs2 !! PyStr.path_join base_dir name) →
  logo_uploaded fs1 = logo_uploaded fs2.
Proof.
  intros Hsame. unfold logo_uploaded. cbn [existsb].
  change ("college_logo." +:+ "png") with "college_logo.png".
  change ("college_logo." +:+ "jpg") with "college_logo.jpg".
  change ("college_logo." +:+ "jpeg") with "college_logo.jpeg".
  rewrite !Hsame; [done | ..]; unfold logo_files;
    rewrite !elem_of_cons; auto.
Qed.

Lemma generate_docx_keeps_logo_files (data : RecordData) (fs : Files) (name : string) :
  name ∈ logo_files →
  (generate_docx data fs).2 !! PyStr.path_join base_dir name
  = fs !! PyStr.path_join base_dir name.
Proof.
  intros Hname. apply generate_docx_frame.
  - by apply logo_file_not_output.
  - intros i. by apply logo_file_not_qr.
Qed.

(** X16. A build, completed or not, leaves the logo files as they were: what
    the logo loop finds and what the root endpoint reports are the same
    before and after. *)
Theorem build_leaves_logo (data : RecordData) (fs : Files) :
  Forall (λ name, (generate_docx data fs).2 !! PyStr.path_join base_dir name
                  = fs !! PyStr.path_join base_dir name) logo_files ∧
  find_logo logo_files (generate_docx data fs).2 = find_logo logo_files fs ∧
  logo_uploaded (generate_docx data fs).2 = logo_uploaded fs ∧
  root (generate_docx data fs).2
  = ((root fs).1, (generate_docx data fs).2).
Proof.
  pose proof (generate_docx_keeps_logo_files data fs) as Hsame.
  split; [by apply Forall_forall|].
  split; [by apply find_logo_ext|].
  split; [by apply logo_uploaded_ext|].
  unfold root. cbn [fst]. by rewrite (logo_uploaded_ext _ fs Hsame).
Qed.

Lemma built_files_idem (data : RecordData) (logo : option Image)
    (imgs : list Image) (fs : Files) :
  length imgs = length (experiments data) →
  built_files data logo imgs (built_files data logo imgs fs)
  = built_files data logo imgs fs.
Proof.
  intros Hlen. apply map_eq. intros p. unfold built_files at 1 3.
  rewrite !remove_all_lookup.
  destruct (bool_decide (p ∈ qr_filenames (length (experiments data)))) eqn:Hq;
    [done|].
  apply bool_decide_eq_false in Hq.
  destruct (decide (output_filename data = p)) as [<-|Hne].
  - by rewrite !lookup_insert_eq.
  - rewrite !lookup_insert_ne by done.
    assert (∀ i, 0 ≤ i < 0 + length imgs → p ≠ qr_filename i) as Hout.
    { intros i Hi ->. apply Hq. apply list_elem_of_fmap. exists i.
      split; [done|]. apply elem_of_seq. lia. }
    rewrite !stage_files_lookup_outside by done.
    unfold built_files. rewrite remove_all_lookup, bool_decide_eq_false_2 by done.
    rewrite lookup_insert_ne by done. by rewrite stage_files_lookup_outside.
Qed.

(** X17. A completed build can be repeated: on the files it left, the same
    request is answered alike and leaves the files as they are. *)
Theorem build_idempotent (data : RecordData) (fs fs' : Files) (resp : Response) :
  generate_docx data fs = (inr resp, fs') →
  generate_docx data fs' = (inr resp, fs').
Proof.
  intros Hrun.
  pose proof (find_logo_ext logo_files _ fs
                (generate_docx_keeps_logo_files data fs)) as Hlogo.
  rewrite Hrun in Hlogo. cbn [snd] in Hlogo.
  pose proof (generate_docx_ok_accepted _ _ _ _ Hrun) as (Htitle & _ & Hfooter & Hsave).
  apply generate_docx_ok_inv in Hrun as (logo & imgs & Hl & Hi & -> & ->).
  apply generate_docx_ok_iff.
  rewrite generate_docx_body_run, Hlogo, Hl, Htitle, Hi.
  rewrite (proj2 (finish_error_None data)) by done.
  f_equal. apply built_files_idem. by apply encode_all_length.
Qed.

End More.

Section Documents.
Context `{Platform}.

Lemma experiment_table_rows_Forall (P : list Cell → Prop) :
  (∀ idx exp img, P (experiment_cells idx exp img)) →
  ∀ exps imgs idx, Forall P (experiment_table_rows idx exps imgs).
Proof.
  intros HP. induction exps as [|e exps IH]; intros [|img imgs] idx; cbn; try done.
  constructor; [apply HP | apply IH].
Qed.

(** X11. In the experiment table of a completed build every header cell has
    the four border elements, top, left, bottom, right, and its text in
    centred paragraphs of bold 11 point runs; no cell of an experiment row
    has a border element. *)
Theorem header_cells_bordered (data : RecordData) (fs fs' : Files) (resp : Response) :
  generate_docx data fs = (inr resp, fs') →
  ∃ doc tb header rest,
    saved_document fs' (output_filename data) = Some doc ∧
    head (tables doc) = Some tb ∧
    rows tb = header :: rest ∧
    Forall (λ cell,
              borders cell = four_borders ∧
              Forall (λ p, alignment p = Some CENTER ∧
                           Forall (λ r, run_bold r = Some true ∧
                                        run_size r = Some (Pt 11)) (runs p))
                     (paragraphs cell)) header ∧
    Forall (λ row, Forall (λ cell, borders cell = []) row) rest.
Proof.
  intros (logo & imgs & _ & _ & _ & ->)%generate_docx_ok_inv.
  exists (document_of data logo imgs), (experiment_table data imgs),
         (apply_widths 0 widths header_row),
         (experiment_table_rows 0 (experiments data) imgs).
  split; [apply built_files_saved|].
  split; [by rewrite tables_document_of|]. split; [done|]. split.
  - repeat constructor.
  - apply experiment_table_rows_Forall. intros idx exp img. repeat constructor.
Qed.

(** X12. In the experiment table of a completed build every row, the header
    and the experiment rows alike, has the six fixed cell widths: 0.5, 0.8,
    3.0, 0.8, 0.6 and 1.0 inch. *)
Theorem column_widths_fixed (data : RecordData) (fs fs' : Files) (resp : Response) :
  generate_docx data fs = (inr resp, fs') →
  ∃ doc tb,
    saved_document fs' (output_filename data) = Some doc ∧
    head (tables doc) = Some tb ∧
    Forall (λ row, width <$> row
                   = [Some 457200; Some 731520; Some 2743200;
                      Some 731520; Some 548640; Some 914400]%Z) (rows tb).
Proof.
  intros (logo & imgs & _ & _ & _ & ->)%generate_docx_ok_inv.
  exists (document_of data logo imgs), (experiment_table data imgs).
  split; [apply built_files_saved|].
  split; [by rewrite tables_document_of|].
  constructor; [done|].
  by apply experiment_table_rows_Forall.
Qed.

(** X13. The row of experiment [i] in a completed build: the date cell reads
    the date as given, the title cell reads the title, two line breaks and
    the link, the link being a run of its own, 9 point, blue, underlined;
    the code, mark and signature cells have no text. *)
Theorem experiment_row_contents (data : RecordData) (fs fs' : Files)
    (resp : Response) (i : nat) (exp : Experiment) :
  generate_docx data fs = (inr resp, fs') →
  experiments data !! i = Some exp →
  ∃ doc tb row title_cell p link,
    saved_document fs' (output_filename data) = Some doc ∧
    head (tables doc) = Some tb ∧
    rows tb !! (i + 1) = Some row ∧
    tail (cell_text <$> row)
    = [ date exp;
        title exp +:+ String "010" (String "010" "") +:+ github exp;
        ""; ""; "" ] ∧
    row !! 2 = Some title_cell ∧
    paragraphs title_cell = [p] ∧
    last (runs p) = Some link ∧
    run_text link = github exp ∧
    run_size link = Some (Pt 9) ∧
    run_color link = Some (0, 0, 255)%Z ∧
    run_underline link = Some true.
Proof.
  intros (logo & imgs & _ & Himgs & _ & ->)%generate_docx_ok_inv Hexp.
  destruct (experiment_table_rows_lookup (experiments data) imgs 0 i exp)
    as (img & _ & Hrow); [by apply encode_all_length | done |].
  eexists (document_of data logo imgs), (experiment_table data imgs),
          (experiment_cells i exp img), _, _, (link_run (github exp)).
  split; [apply built_files_saved|].
  split; [by rewrite tables_document_of|].
  split; [by rewrite Nat.add_1_r|].
  split; [|by split_and!].
  unfold experiment_cells, cell_text, paragraph_text, text_cell.
  cbn [fmap list_fmap tail paragraphs runs run_text new_run link_run picture_run
       concat_strings join_lines].
  rewrite !PyStrFacts.app_nil_r.
  by destruct (bool_decide (date exp = "")) eqn:E;
    [apply bool_decide_eq_true in E as -> |].
Qed.

(** X14. The footer of a completed build is a table of two rows of two
    cells with autofit off: the first row reads the name and the register
    number behind their labels, in 11 point runs, the register number
    right-aligned; the second row is empty. *)
Theorem footer_table (data : RecordData) (fs fs' : Files) (resp : Response) :
  generate_docx data fs = (inr resp, fs') →
  ∃ doc tb details name_cell reg_cell,
    saved_document fs' (output_filename data) = Some doc ∧
    tables doc = [tb; details] ∧
    last (body doc) = Some (BTable details) ∧
    autofit details = Some false ∧
    (λ row : list Cell, cell_text <$> row) <$> rows details
    = [ [ "Name: " +:+ student_name data;
          "Register Number: " +:+ register_number data ];
        [ ""; "" ] ] ∧
    head (rows details) = Some [name_cell; reg_cell] ∧
    alignment <$> paragraphs name_cell = [None] ∧
    alignment <$> paragraphs reg_cell = [Some RIGHT] ∧
    Forall (λ r, run_size r = Some (Pt 11))
           ((paragraphs name_cell ++ paragraphs reg_cell) ≫= runs).
Proof.
  intros (logo & imgs & _ & _ & _ & ->)%generate_docx_ok_inv.
  eexists (document_of data logo imgs), (experiment_table data imgs),
          (details_table data), _, _.
  split; [apply built_files_saved|].
  split; [apply tables_document_of|].
  split; [by destruct logo|]. split; [done|]. split.
  - unfold details_table, details_cell, cell_text, paragraph_text.
    cbn [rows fmap list_fmap paragraphs runs run_text size_11_run new_cell
         new_paragraph concat_strings join_lines].
    by rewrite !PyStrFacts.app_nil_r.
  - split; [done|]. split; [done|]. split; [done|]. repeat constructor.
Qed.

(** X10. The document a completed build saves, element by element: when
    the logo loop found an image, a centred paragraph whose one run carries
    that image 7 inches wide, and an empty paragraph; then the course
    title, centred, bold, 14 point; an empty paragraph; the experiment
    table, in the style Table Grid; two empty paragraphs; the confirmation
    sentence in bold; an empty paragraph; and the footer table, with
    autofit off. The logo loop found an image exactly when the root
    endpoint reports a logo. The margins are 0.5 inch at the top and 1 inch
    elsewhere. *)
Theorem document_layout (data : RecordData) (fs fs' : Files) (resp : Response) :
  generate_docx data fs = (inr resp, fs') →
  ∃ doc logo tb details,
    saved_document fs' (output_filename data) = Some doc ∧
    find_logo logo_files fs = inr logo ∧
    (is_Some logo ↔ logo_uploaded fs = true) ∧
    sections doc = [ {| top_margin := Some 457200%Z; bottom_margin := Some 914400%Z;
                        left_margin := Some 914400%Z;
                        right_margin := Some 914400%Z |} ] ∧
    tables doc = [tb; details] ∧
    style tb = Some "Table Grid" ∧
    length (rows tb) = length (experiments data) + 1 ∧
    style details = None ∧ autofit details = Some false ∧
    length (rows details) = 2 ∧
    body doc
    = match logo with
      | Some img =>
          [ BParagraph
              {| alignment := Some CENTER;
                 runs := [ {| run_text := ""; run_bold := None; run_size := None;
                              run_color := None; run_underline := None;
                              run_picture := Some {| pic_image := img;
                                                     pic_width := 6400800 |} |} ] |};
            BParagraph {| alignment := None; runs := [] |} ]
      | None => []
      end ++
      [ BParagraph {| alignment := Some CENTER;
                      runs := [ {| run_text := course_title data;
                                   run_bold := Some true;
                                   run_size := Some 177800%Z;
                                   run_color := None; run_underline := None;
                                   run_picture := None |} ] |};
        BParagraph {| alignment := None; runs := [] |};
        BTable tb;
        BParagraph {| alignment := None; runs := [] |};
        BParagraph {| alignment := None; runs := [] |};
        BParagraph {| alignment := None;
                      runs := [ {| run_text := confirmation_text;
                                   run_bold := Some true; run_size := None;
                                   run_color := None; run_underline := None;
                                   run_picture := None |} ] |};
        BParagraph {| alignment := None; runs := [] |};
        BTable details ].
Proof.
  intros (logo & imgs & Hlogo & Himgs & _ & ->)%generate_docx_ok_inv.
  exists (document_of data logo imgs), logo, (experiment_table data imgs),
         (details_table data).
  rewrite (logo_uploaded_find fs logo Hlogo).
  split; [apply built_files_saved|]. split; [done|].
  split; [destruct logo; split; by (done || eexists || intros [])|].
  split; [done|]. split; [apply tables_document_of|]. split; [done|].
  split.
  { apply encode_all_length in Himgs. cbn.
    rewrite length_experiment_table_rows by done. lia. }
  split; [done|]. split; [done|]. split; [done|].
  by destruct logo.
Qed.

End Documents.

Section Uploads.
Context `{Platform}.
Import PathFacts.

(** The upload handler body, run. *)
Lemma upload_logo_body_run (f : UploadFile) (fs : Files) :
  upload_logo_body f fs
  = match content_type f with
    | None => (inl AttributeError, fs)
    | Some ct =>
        if PyStr.startswith "image/" ct then
          match filename f with
          | None => (inl AttributeError, fs)
          | Some name =>
              let ext := PyStr.lower (PyStr.split_last "." name) in
              if bool_decide (ext = "png") then
                (inr uploaded_response, <[logo_path "png" := file f]> fs)
              else if bool_decide (ext ∈ ["jpg"; "jpeg"]) then
                match file f with
                | ImageFile img =>
                    (inr uploaded_response,
                     delete (logo_path ext)
                       (<[logo_path "png" := ImageFile img]>
                          (<[logo_path ext := file f]> fs)))
                | _ => (inl (UnidentifiedImageError (logo_path ext)),
                        <[logo_path ext := file f]> fs)
                end
              else (inl (HTTPException 400 "Only PNG, JPG, JPEG files allowed"), fs)
          end
        else (inl (HTTPException 400 "File must be an image"), fs)
    end.
Proof.
  unfold upload_logo_body.
  destruct (content_type f) as [ct|]; [|done]. cbn [or_raise].
  rewrite bind_run, ret_run.
  destruct (PyStr.startswith "image/" ct); [|done]. cbn [negb].
  destruct (filename f) as [name|]; [|done]. cbn [or_raise].
  rewrite bind_run, ret_run. cbn zeta.
  set (ext := PyStr.lower (PyStr.split_last "." name)).
  destruct (decide (ext = "png")) as [Hpng|Hpng].
  - rewrite Hpng. done.
  - rewrite (bool_decide_eq_false_2 (ext = "png")) by done.
    destruct (decide (ext ∈ ["jpg"; "jpeg"])) as [Hj|Hj].
    + rewrite (bool_decide_eq_true_2 (ext ∈ logo_extensions)) by (by right).
      rewrite (bool_decide_eq_true_2 (ext ∈ ["jpg"; "jpeg"])) by done.
      cbn [negb]. rewrite bind_run. unfold write_file at 1.
      rewrite bind_run. unfold read_image. fold (logo_path ext).
      rewrite lookup_insert_eq.
      destruct (file f) as [img| |]; [|done|done].
      rewrite bind_run. unfold write_file at 1. rewrite bind_run.
      unfold os_remove.
      change (PyStr.path_join base_dir "college_logo.png") with (logo_path "png").
      rewrite lookup_insert.
      destruct (decide (logo_path "png" = logo_path ext)); [done|].
      by rewrite lookup_insert_eq.
    + rewrite (bool_decide_eq_false_2 (ext ∈ logo_extensions))
        by (by intros [?|?]%elem_of_cons).
      by rewrite (bool_decide_eq_false_2 (ext ∈ ["jpg"; "jpeg"])).
Qed.

Lemma logo_path_inj (a b : string) : logo_path a = logo_path b → a = b.
Proof.
  unfold logo_path. intros Heq. apply path_join_inj in Heq; [|done..].
  by apply (inj (String.app "college_logo.")) in Heq.
Qed.

(** X3. An upload that carries a file name is answered 200 or 500 and
    nothing else: the 400 rejections raised in the body of the handler
    never reach the client. *)
Theorem upload_answers_200_or_500 (f : UploadFile) (fs : Files) (name : string) :
  filename f = Some name →
  (status (post_upload_logo f fs).1 = 200 ∨ status (post_upload_logo f fs).1 = 500) ∧
  status (post_upload_logo f fs).1 ≠ 400.
Proof.
  intros Hname.
  assert (status (post_upload_logo f fs).1 = 200
          ∨ status (post_upload_logo f fs).1 = 500) as Hcases.
  { unfold post_upload_logo, respond, upload_logo, try_except.
    rewrite upload_logo_body_run, Hname.
    destruct (content_type f) as [ct|]; [|by right].
    destruct (PyStr.startswith "image/" ct); [|by right]. cbn zeta.
    destruct (bool_decide _); [by left|].
    destruct (bool_decide _); [|by right].
    destruct (file f); by (left + right). }
  split; [done|]. by destruct Hcases as [-> | ->].
Qed.

(** What an upload answered 200 has done. *)
Lemma upload_ok_inv (f : UploadFile) (fs fs' : Files) (r : Response) :
  post_upload_logo f fs = (r, fs') → status r = 200 →
  ∃ ct name,
    content_type f = Some ct ∧ PyStr.startswith "image/" ct = true ∧
    filename f = Some name ∧
    PyStr.lower (PyStr.split_last "." name) ∈ logo_extensions ∧
    r = uploaded_response ∧
    (PyStr.lower (PyStr.split_last "." name) = "png" →
       fs' = <[logo_path "png" := file f]> fs) ∧
    (PyStr.lower (PyStr.split_last "." name) ≠ "png" →
       ∃ img, file f = ImageFile img ∧
              fs' = delete (logo_path (PyStr.lower (PyStr.split_last "." name)))
                      (<[logo_path "png" := ImageFile img]>
                         (<[logo_path (PyStr.lower (PyStr.split_last "." name))
                            := file f]> fs))).
Proof.
  unfold post_upload_logo, respond, upload_logo, try_except.
  rewrite upload_logo_body_run.
  destruct (content_type f) as [ct|]; [|by intros [= <- <-]].
  destruct (PyStr.startswith "image/" ct) eqn:Hct; [|by intros [= <- <-]].
  destruct (filename f) as [name|]; [|by intros [= <- <-]]. cbn zeta.
  set (ext := PyStr.lower (PyStr.split_last "." name)).
  destruct (decide (ext = "png")) as [Hp|Hp].
  - rewrite (bool_decide_eq_true_2 _ Hp). intros [= <- <-] _.
    exists ct, name. split_and!; try done.
    fold ext. rewrite Hp. by left.
  - rewrite (bool_decide_eq_false_2 _ Hp).
    destruct (decide (ext ∈ ["jpg"; "jpeg"])) as [Hj|Hj].
    + rewrite (bool_decide_eq_true_2 _ Hj).
      destruct (file f) as [img| |] eqn:Hfile; try by intros [= <- <-].
      intros [= <- <-] _. exists ct, name. split_and!; try done.
      * fold ext. by right.
      * intros _. by exists img.
    + rewrite (bool_decide_eq_false_2 _ Hj). by intros [= <- <-].
Qed.

Lemma post_upload_logo_ok (f : UploadFile) (fs fs' : Files) (r : Response) :
  upload_logo_body f fs = (inr r, fs') → post_upload_logo f fs = (r, fs').
Proof.
  intros Hrun. unfold post_upload_logo, respond, upload_logo, try_except.
  by rewrite Hrun.
Qed.

Lemma find_logo_png (fs : Files) (d : FileData) :
  fs !! logo_path "png" = Some d →
  find_logo logo_files fs
  = match d with
    | ImageFile img => inr (Some img)
    | _ => inl (UnrecognizedImageError (logo_path "png"))
    end.
Proof.
  intros Hd. unfold logo_files. cbn [find_logo].
  change (PyStr.path_join base_dir "college_logo.png") with (logo_path "png").
  rewrite Hd. by destruct d.
Qed.

Lemma logo_uploaded_true (fs : Files) (ext : string) :
  ext ∈ logo_extensions → is_Some (fs !! logo_path ext) → logo_uploaded fs = true.
Proof.
  unfold logo_extensions. rewrite !elem_of_cons, elem_of_nil.
  unfold logo_uploaded. cbn [existsb]. fold (logo_path "png") (logo_path "jpg")
    (logo_path "jpeg").
  intros [->|[->|[->|[]]]] Hsome; rewrite (bool_decide_eq_true_2 _ Hsome);
    by rewrite ?orb_true_r.
Qed.

(** X4. An upload answered 200 has ended as [college_logo.png] whatever
    its extension was: the answer names that path; under a png name the
    file there is the upload as it came; under a jpg or jpeg name the
    upload was read as an image, the file there holds that image, and the
    file written under the jpg or jpeg name is gone again; the root
    endpoint reports a logo. *)
Theorem upload_normalised_to_png (f : UploadFile) (fs fs' : Files) (r : Response) :
  post_upload_logo f fs = (r, fs') → status r = 200 →
  ∃ name,
    filename f = Some name ∧
    PyStr.lower (PyStr.split_last "." name) ∈ logo_extensions ∧
    r = JSONResponse [("message", "Logo uploaded successfully");
                      ("filename", logo_path "png")] ∧
    (PyStr.lower (PyStr.split_last "." name) = "png" →
       fs' !! logo_path "png" = Some (file f)) ∧
    (PyStr.lower (PyStr.split_last "." name) ≠ "png" →
       ∃ img, file f = ImageFile img ∧
              fs' !! logo_path "png" = Some (ImageFile img) ∧
              fs' !! logo_path (PyStr.lower (PyStr.split_last "." name)) = None) ∧
    root fs' = (inr [ ("message", JsonString "Lab Record Generator API");
                      ("status", JsonString "running");
                      ("version", JsonString "1.0");
                      ("logo_uploaded", JsonBool true) ], fs').
Proof.
  intros Hrun Hok.
  destruct (upload_ok_inv f fs fs' r Hrun Hok)
    as (ct & name & _ & _ & Hname & Hext & -> & Hpng & Hjpg).
  set (ext := PyStr.lower (PyStr.split_last "." name)) in *.
  assert (is_Some (fs' !! logo_path "png")) as Hthere.
  { destruct (decide (ext = "png")) as [Hp|Hp].
    - rewrite (Hpng Hp), lookup_insert_eq. by eexists.
    - destruct (Hjpg Hp) as (img & _ & ->).
      rewrite lookup_delete_ne by (by intros ?%logo_path_inj).
      rewrite lookup_insert_eq. by eexists. }
  exists name. split_and!; try done.
  - intros Hp. by rewrite (Hpng Hp), lookup_insert_eq.
  - intros Hp. destruct (Hjpg Hp) as (img & Hfile & ->). exists img.
    split; [done|]. split.
    + rewrite lookup_delete_ne by (by intros ?%logo_path_inj).
      by rewrite lookup_insert_eq.
    + by rewrite lookup_delete_eq.
  - unfold root. by rewrite (logo_uploaded_true fs' "png"); [| by left |].
Qed.

(** X7. When an upload has been answered 200 and a build on the files it
    left completes, the upload was an image and the saved document opens
    with that image, in a centred paragraph and 7 inches wide. *)
Theorem uploaded_logo_opens_document (f : UploadFile) (fs fs1 fs2 : Files)
    (r resp : Response) (data : RecordData) :
  post_upload_logo f fs = (r, fs1) → status r = 200 →
  generate_docx data fs1 = (inr resp, fs2) →
  ∃ img doc rest,
    file f = ImageFile img ∧
    fs1 !! logo_path "png" = Some (ImageFile img) ∧
    saved_document fs2 (output_filename data) = Some doc ∧
    body doc
    = BParagraph
        {| alignment := Some CENTER;
           runs := [ {| run_text := ""; run_bold := None; run_size := None;
                        run_color := None; run_underline := None;
                        run_picture := Some {| pic_image := img;
                                               pic_width := 6400800 |} |} ] |}
      :: rest.
Proof.
  intros Hrun Hok Hbuild.
  destruct (upload_ok_inv f fs fs1 r Hrun Hok)
    as (ct & name & _ & _ & Hname & Hext & -> & Hpng & Hjpg).
  set (ext := PyStr.lower (PyStr.split_last "." name)) in *.
  apply generate_docx_ok_inv in Hbuild as (logo & imgs & Hlogo & _ & _ & ->).
  assert (∃ img, file f = ImageFile img ∧ logo = Some img ∧
                 fs1 !! logo_path "png" = Some (ImageFile img))
    as (img & Hfile & -> & Hthere).
  { destruct (decide (ext = "png")) as [Hp|Hp].
    - assert (fs1 !! logo_path "png" = Some (file f)) as Hl
        by (by rewrite (Hpng Hp), lookup_insert_eq).
      rewrite (find_logo_png fs1 _ Hl) in Hlogo.
      destruct (file f) as [img| |] eqn:Hfile; try done.
      injection Hlogo as <-. by exists img.
    - destruct (Hjpg Hp) as (img & Hfile & Hfs).
      assert (fs1 !! logo_path "png" = Some (ImageFile img)) as Hl.
      { rewrite Hfs, lookup_delete_ne by (by intros ?%logo_path_inj).
        by rewrite lookup_insert_eq. }
      rewrite (find_logo_png fs1 _ Hl) in Hlogo. injection Hlogo as <-.
      by exists img. }
  eexists img, (document_of data (Some img) imgs), _.
  split; [done|]. split; [done|]. split; [apply built_files_saved|]. done.
Qed.

(** X5. A file uploaded under a png name is stored without being read: when
    it is not an image the upload is still answered 200, the root endpoint
    reports a logo, and from then on every build is answered 500. *)
Theorem unreadable_png_breaks_builds (f : UploadFile) (fs : Files)
    (ct name : string) (data : RecordData) :
  content_type f = Some ct → PyStr.startswith "image/" ct = true →
  filename f = Some name →
  PyStr.lower (PyStr.split_last "." name) = "png" →
  (∀ img, file f ≠ ImageFile img) →
  post_upload_logo f fs = (uploaded_response, <[logo_path "png" := file f]> fs) ∧
  status (post_upload_logo f fs).1 = 200 ∧
  logo_uploaded (<[logo_path "png" := file f]> fs) = true ∧
  respond (generate_docx data) (<[logo_path "png" := file f]> fs)
  = (ErrorResponse 500
       ("Error: " +:+ exn_str (UnrecognizedImageError (logo_path "png"))),
     <[logo_path "png" := file f]> fs).
Proof.
  intros Hct Himg Hname Hext Hfile.
  assert (post_upload_logo f fs
          = (uploaded_response, <[logo_path "png" := file f]> fs)) as Hpost.
  { apply post_upload_logo_ok.
    by rewrite upload_logo_body_run, Hct, Himg, Hname; cbn zeta; rewrite Hext. }
  split; [done|]. split; [by rewrite Hpost|].
  split.
  { apply (logo_uploaded_true _ "png"); [by left|].
    rewrite lookup_insert_eq. by eexists. }
  pose proof (find_logo_png (<[logo_path "png" := file f]> fs) (file f)
                (lookup_insert_eq _ _ _)) as Hlogo.
  unfold respond, generate_docx, try_except.
  rewrite generate_docx_body_run, Hlogo.
  destruct (file f) as [img| |]; [by destruct (Hfile img) | done | done].
Qed.


End Uploads.

Section Rest.
Context `{Platform}.

Lemma build_status_cases (data : RecordData) (fs : Files) :
  status (respond (generate_docx data) fs).1 = 200
  ∨ status (respond (generate_docx data) fs).1 = 500.
Proof.
  unfold respond, generate_docx, try_except. rewrite generate_docx_body_run.
  destruct (find_logo logo_files fs) as [e|logo]; [by right|].
  destruct (text_error (course_title data)) as [e|]; [by right|].
  destruct (encode_all (experiments data)) as [imgs [e|]]; [by right|].
  destruct (finish_error data) as [e|]; [by right | by left].
Qed.

(** What [accepted] asks of a record, field by field. *)
Lemma accepted_fields (data : RecordData) :
  accepted data
  ↔ text_error (course_title data) = None ∧
    Forall (λ exp, text_error (date exp) = None ∧ text_error (title exp) = None ∧
                   text_error (github exp) = None ∧
                   ∃ img, create_qr_code (github exp) 150 = inr img)
           (experiments data) ∧
    text_error ("Name: " +:+ student_name data) = None ∧
    text_error ("Register Number: " +:+ register_number data) = None ∧
    save_error ("/tmp/" +:+ register_number data +:+ "_Lab_Record.docx") = None.
Proof.
  unfold accepted, footer_texts, row_texts, encodable. cbn [first_error].
  split.
  - intros (Ht & Hrows & Hfooter & Hsave). split; [done|]. split.
    + eapply Forall_impl; [exact Hrows|]. intros exp [Htexts Himg]. revert Htexts.
      destruct (text_error (date exp)); [done|].
      destruct (text_error (title exp)); [done|].
      by destruct (text_error (github exp)).
    + revert Hfooter.
      destruct (text_error ("Name: " +:+ student_name data)); [done|].
      by destruct (text_error ("Register Number: " +:+ register_number data)).
  - intros (Ht & Hrows & Hname & Hreg & Hsave). split; [done|]. split.
    + eapply Forall_impl; [exact Hrows|].
      intros exp (-> & -> & -> & Himg). by split.
    + by rewrite Hname, Hreg.
Qed.

(** X9. A build is answered 200 or 500. It is answered 200 only when the
    logo loop meets no file that is not an image, python-docx takes the
    course title, the texts of every experiment and the two footer texts,
    the generator returns a code image for the link of every experiment,
    and the output document can be written; the answer is then the file
    response. *)
Theorem build_answered_200_only_if (data : RecordData) (fs : Files) :
  (status (respond (generate_docx data) fs).1 = 200
   ∨ status (respond (generate_docx data) fs).1 = 500) ∧
  (status (respond (generate_docx data) fs).1 = 200 →
     (∃ logo, find_logo logo_files fs = inr logo) ∧
     text_error (course_title data) = None ∧
     Forall (λ exp, text_error (date exp) = None ∧ text_error (title exp) = None ∧
                    text_error (github exp) = None ∧
                    ∃ img, create_qr_code (github exp) 150 = inr img)
            (experiments data) ∧
     text_error ("Name: " +:+ student_name data) = None ∧
     text_error ("Register Number: " +:+ register_number data) = None ∧
     save_error ("/tmp/" +:+ register_number data +:+ "_Lab_Record.docx") = None ∧
     (respond (generate_docx data) fs).1
     = FileResponse (output_filename data) (output_filename data) docx_media_type).
Proof.
  split; [apply build_status_cases|].
  destruct (generate_docx data fs) as [[e|resp] fs'] eqn:Hrun.
  - unfold respond. rewrite Hrun. unfold generate_docx, try_except in Hrun.
    destruct (generate_docx_body data fs) as [[e0|r0] fs0]; [|done].
    by injection Hrun as <- <-.
  - intros _.
    pose proof (generate_docx_ok_accepted _ _ _ _ Hrun) as Hok.
    apply accepted_fields in Hok as (Ht & Hrows & Hname & Hreg & Hsave).
    unfold respond. rewrite Hrun. cbn [fst].
    apply generate_docx_ok_inv in Hrun as (logo & imgs & Hlogo & _ & -> & _).
    split; [by exists logo|]. by split_and!.
Qed.

(** X21. A record the libraries take is built: when the logo loop meets no
    file that is not an image, python-docx takes the course title, the
    texts of every experiment and the two footer texts, the generator
    returns a code image for the link of every experiment and the output
    document can be written, the build is answered with the file response,
    the document is saved under the output path and no code image is left
    behind. *)
Theorem accepted_record_is_built (data : RecordData) (fs : Files)
    (logo : option Image) :
  find_logo logo_files fs = inr logo →
  text_error (course_title data) = None →
  Forall (λ exp, text_error (date exp) = None ∧ text_error (title exp) = None ∧
                 text_error (github exp) = None ∧
                 ∃ img, create_qr_code (github exp) 150 = inr img)
         (experiments data) →
  text_error ("Name: " +:+ student_name data) = None →
  text_error ("Register Number: " +:+ register_number data) = None →
  save_error ("/tmp/" +:+ register_number data +:+ "_Lab_Record.docx") = None →
  ∃ fs' doc,
    respond (generate_docx data) fs
    = (FileResponse (output_filename data) (output_filename data) docx_media_type,
       fs') ∧
    saved_document fs' (output_filename data) = Some doc ∧
    length (tables doc) = 2 ∧
    (∀ i, i < length (experiments data) → fs' !! qr_filename i = None).
Proof.
  intros Hlogo Ht Hrows Hname Hreg Hsave.
  destruct (generate_docx_completes data fs logo Hlogo) as (imgs & Himgs & Hrun).
  { by apply accepted_fields. }
  exists (built_files data logo imgs fs), (document_of data logo imgs).
  split; [unfold respond; by rewrite Hrun|].
  split; [apply built_files_saved|].
  split; [by rewrite tables_document_of|].
  intros i Hi. unfold built_files. rewrite remove_all_lookup.
  rewrite bool_decide_eq_true_2; [done|].
  apply list_elem_of_fmap. exists i. split; [done|]. apply elem_of_seq. lia.
Qed.

(** X18. A build stopped in the row of an experiment, by a text of the row
    that python-docx refuses or by the generator, answers 500 with the
    message of the exception raised there, writes no output document, and
    leaves on disk the code image of every row before that one. *)
Theorem stopped_build_leaves_code_images (data : RecordData) (fs : Files)
    (logo : option Image) (pre post : list Experiment) (bad : Experiment) (e : Exn) :
  find_logo logo_files fs = inr logo →
  text_error (course_title data) = None →
  experiments data = pre ++ bad :: post →
  Forall (λ exp, first_error (row_texts exp) = None ∧
                 ∃ img, create_qr_code (github exp) 150 = inr img) pre →
  encode_row bad = inl e →
  ∃ fs',
    respond (generate_docx data) fs
    = (ErrorResponse 500 ("Error: " +:+ exn_str e), fs') ∧
    fs' !! output_filename data = fs !! output_filename data ∧
    (∀ i exp, pre !! i = Some exp →
       ∃ img, create_qr_code (github exp) 150 = inr img ∧
              fs' !! qr_filename i = Some (ImageFile img)) ∧
    (∀ i, length pre ≤ i → fs' !! qr_filename i = fs !! qr_filename i).
Proof.
  intros Hlogo Htitle Hexps Hpre Hbad.
  destruct (encode_all_stopped pre bad post e Hpre Hbad) as (imgs & Himgs & Hall).
  rewrite <- Hexps in Himgs.
  exists (stage_files 0 imgs fs). split; [|split; [|split]].
  - unfold respond, generate_docx, try_except.
    by rewrite generate_docx_body_run, Hlogo, Htitle, Himgs.
  - apply stage_files_lookup_other. intros i Heq.
    apply (output_filename_not_qr data (S i)). rewrite Heq.
    apply list_elem_of_fmap. exists i. split; [done|]. apply elem_of_seq. lia.
  - intros i exp Hi.
    destruct (Forall2_lookup_l _ _ _ _ _ Hall Hi) as (img & Himg & Hc).
    exists img. split; [done|].
    by apply (stage_files_lookup_staged imgs 0 fs i img).
  - intros i Hi. apply stage_files_lookup_outside.
    intros j Hj Heq%qr_filename_inj.
    apply Forall2_length in Hall. lia.
Qed.

(** X19. A build stopped after the experiments loop, by a footer text that
    python-docx refuses or by a document that cannot be written, answers
    500 with the message of the exception, writes no output document, and
    leaves the code image of every experiment on disk: the removal loop is
    not reached. *)
Theorem unsaved_build_leaves_code_images (data : RecordData) (fs : Files)
    (logo : option Image) (e : Exn) :
  find_logo logo_files fs = inr logo →
  text_error (course_title data) = None →
  Forall (λ exp, first_error (row_texts exp) = None ∧
                 ∃ img, create_qr_code (github exp) 150 = inr img)
         (experiments data) →
  finish_error data = Some e →
  ∃ fs',
    respond (generate_docx data) fs
    = (ErrorResponse 500 ("Error: " +:+ exn_str e), fs') ∧
    fs' !! output_filename data = fs !! output_filename data ∧
    (∀ i exp, experiments data !! i = Some exp →
       ∃ img, create_qr_code (github exp) 150 = inr img ∧
              fs' !! qr_filename i = Some (ImageFile img)).
Proof.
  intros Hlogo Htitle [imgs Himgs]%encode_all_accepted Hfinish.
  exists (stage_files 0 imgs fs). split; [|split].
  - unfold respond, generate_docx, try_except.
    by rewrite generate_docx_body_run, Hlogo, Htitle, Himgs, Hfinish.
  - apply stage_files_lookup_other. intros i Heq.
    apply (output_filename_not_qr data (S i)). rewrite Heq.
    apply list_elem_of_fmap. exists i. split; [done|]. apply elem_of_seq. lia.
  - intros i exp Hi.
    destruct (lookup_lt_is_Some_2 imgs i) as [img Himg].
    { rewrite (encode_all_length _ _ Himgs). by eapply lookup_lt_Some. }
    exists img. split; [by eapply encode_all_lookup|].
    by apply (stage_files_lookup_staged imgs 0 fs i img).
Qed.

(** X20. A course title that python-docx refuses stops the build before
    anything is written: the answer is 500 with the message of the
    exception, and the files are as they were. *)
Theorem refused_title_stops_build (data : RecordData) (fs : Files)
    (logo : option Image) (e : Exn) :
  find_logo logo_files fs = inr logo →
  text_error (course_title data) = Some e →
  respond (generate_docx data) fs
  = (ErrorResponse 500 ("Error: " +:+ exn_str e), fs).
Proof.
  intros Hlogo Htitle. unfold respond, generate_docx, try_except.
  by rewrite generate_docx_body_run, Hlogo, Htitle.
Qed.

(** X8. A body with a required field missing is answered 422: one of the
    three strings or the list of the record, or the title or the link of
    an experiment. The handler is then not run and no file is touched. A
    missing date is no reason: it is taken as empty. *)
Theorem missing_field_answers_422 (b : RecordBody) (fs : Files) :
  (body_course_title b = None ∨ body_student_name b = None
   ∨ body_register_number b = None
   ∨ match body_experiments b with
     | None => True
     | Some bodies =>
         Exists (λ eb, body_title eb = None ∨ body_github eb = None) bodies
     end →
   status (post_generate_docx b fs).1 = 422 ∧ (post_generate_docx b fs).2 = fs) ∧
  (∀ t g, validate_Experiment
            {| body_title := Some t; body_date := None; body_github := Some g |}
          = Some {| title := t; date := ""; github := g |}).
Proof.
  split; [|done].
  unfold post_generate_docx, validate_RecordData.
  destruct b as [[c|] [s|] [r|] [bs|]]; cbn; try done; try tauto.
  destruct (mapM validate_Experiment bs) as [es|] eqn:Hes; cbn; [|done].
  intros [?|[?|[?|Hbad]]]; try done. exfalso.
  apply mapM_Some in Hes. apply Exists_exists in Hbad as (eb & Hin & Hmiss).
  apply list_elem_of_lookup in Hin as [i Hi].
  destruct (Forall2_lookup_l _ _ _ _ _ Hes Hi) as (e & _ & He).
  unfold validate_Experiment in He.
  destruct eb as [[t|] d [g|]]; cbn in *; by destruct Hmiss.
Qed.

End Rest.



Section Generator.
Context `{Platform}.

Lemma make_image_pixel (box_size border : nat) (m : list (list bool)) (x y : nat) :
  x < (length m + 2 * border) * box_size →
  y < (length m + 2 * border) * box_size →
  pixel_at (make_image box_size border m) x y
  = Some (if module_dark m border (y / box_size) (x / box_size)
          then black else white).
Proof.
  intros Hx Hy. unfold pixel_at, make_image. cbn zeta.
  rewrite list_lookup_fmap, (lookup_seq_lt _ _ _ Hy). cbn.
  by rewrite list_lookup_fmap, (lookup_seq_lt _ _ _ Hx).
Qed.

(** X1. The quiet zone. In the image rendered from a square matrix, every
    pixel less than [border] modules away from an edge is white, whatever
    the matrix holds. *)
Theorem quiet_zone_white (box_size border : nat) (m : list (list bool))
    (x y : nat) :
  0 < box_size →
  (∀ row, row ∈ m → length row ≤ length m) →
  x < (length m + 2 * border) * box_size →
  y < (length m + 2 * border) * box_size →
  x < border * box_size ∨ y < border * box_size
  ∨ (length m + border) * box_size ≤ x ∨ (length m + border) * box_size ≤ y →
  pixel_at (make_image box_size border m) x y = Some white.
Proof.
  intros Hbox Hsq Hx Hy Hedge. rewrite make_image_pixel by done.
  assert (module_dark m border (y / box_size) (x / box_size) = false) as ->;
    [|done].
  unfold module_dark.
  destruct (y / box_size <? border) eqn:Ey; [done|].
  destruct (x / box_size <? border) eqn:Ex; [done|].
  apply Nat.ltb_ge in Ey, Ex. cbn [orb].
  assert (¬ x < border * box_size) as Hx1.
  { intros Hlt. rewrite Nat.mul_comm in Hlt.
    apply Nat.Div0.div_lt_upper_bound in Hlt. lia. }
  assert (¬ y < border * box_size) as Hy1.
  { intros Hlt. rewrite Nat.mul_comm in Hlt.
    apply Nat.Div0.div_lt_upper_bound in Hlt. lia. }
  destruct Hedge as [?|[?|[Hfar|Hfar]]]; try done.
  - assert (length m + border ≤ x / box_size) as Hq
      by (apply Nat.div_le_lower_bound; lia).
    destruct (m !! (y / box_size - border)) as [row|] eqn:Hrow; [|done]. cbn.
    rewrite lookup_ge_None_2; [done|].
    apply list_elem_of_lookup_2 in Hrow. specialize (Hsq row Hrow). lia.
  - assert (length m + border ≤ y / box_size) as Hq
      by (apply Nat.div_le_lower_bound; lia).
    rewrite lookup_ge_None_2; [done | lia].
Qed.

Lemma filter_sublist {A} (f : A → bool) (l : list A) : List.filter f l `sublist_of` l.
Proof.
  induction l as [|x l IH]; cbn; [done|].
  destruct (f x); by constructor.
Qed.

Lemma kwargs_get_Some (kwargs : list (string * Z)) (key : string) (v : Z) :
  NoDup kwargs.*1 → kwargs_get kwargs key = Some v ↔ (key, v) ∈ kwargs.
Proof.
  induction kwargs as [|[k w] kwargs IH]; intros Hnd; cbn.
  - split; [done | by intros ?%elem_of_nil].
  - apply NoDup_cons in Hnd as [Hk Hnd]. rewrite elem_of_cons.
    destruct (decide (k = key)) as [->|Hne].
    + rewrite bool_decide_eq_true_2 by done. split.
      * intros [= ->]. by left.
      * intros [[= ->]|Hin]; [done|]. exfalso. apply Hk.
        apply list_elem_of_fmap. by exists (key, v).
    + rewrite bool_decide_eq_false_2 by done. rewrite IH by done.
      split; [by right|]. by intros [[= ? ?]|?].
Qed.

Lemma kwargs_get_perm (kwargs kwargs' : list (string * Z)) (key : string) :
  NoDup kwargs.*1 → kwargs ≡ₚ kwargs' →
  kwargs_get kwargs key = kwargs_get kwargs' key.
Proof.
  intros Hnd Hperm.
  assert (NoDup kwargs'.*1) as Hnd' by (by rewrite <- Hperm).
  apply option_eq. intros v.
  rewrite !kwargs_get_Some by done. by rewrite Hperm.
Qed.

(** X2. [set_cell_border] treats its keywords as a dictionary: their order
    does not matter. It leaves the content and the width of the cell alone,
    keeps the border elements the cell already has, and what it adds is a
    selection, in the order top, left, bottom, right, of the four elements
    a fully bordered cell gets; keywords other than these four add
    nothing. *)
Theorem set_cell_border_keywords (kwargs kwargs' : list (string * Z)) (c : Cell) :
  NoDup kwargs.*1 → kwargs ≡ₚ kwargs' →
  set_cell_border kwargs c = set_cell_border kwargs' c ∧
  paragraphs (set_cell_border kwargs c) = paragraphs c ∧
  width (set_cell_border kwargs c) = width c ∧
  ∃ added,
    borders (set_cell_border kwargs c) = borders c ++ added ∧
    added `sublist_of`
      [ {| tag := "w:tcTop"; val := "single"; sz := "4"; space := "0";
           color := "000000" |};
        {| tag := "w:tcLeft"; val := "single"; sz := "4"; space := "0";
           color := "000000" |};
        {| tag := "w:tcBottom"; val := "single"; sz := "4"; space := "0";
           color := "000000" |};
        {| tag := "w:tcRight"; val := "single"; sz := "4"; space := "0";
           color := "000000" |} ].
Proof.
  intros Hnd Hperm. split; [|split; [done|split; [done|]]].
  - unfold set_cell_border. do 3 f_equal.
    cbn [List.filter]. by rewrite !(kwargs_get_perm kwargs kwargs').
  - eexists. split; [done|].
    apply (fmap_sublist border_element _ ["top"; "left"; "bottom"; "right"]).
    apply filter_sublist.
Qed.

End Generator.


(* ===================================================================== *)
(** ** Concrete runs                                                      *)
(* ===================================================================== *)

#[local] Existing Instance Sample.platform.

(** The sample record builds on an empty disk. *)
Lemma sample_record_completes :
  ∃ imgs, generate_docx Sample.record ∅
          = (inr (FileResponse "/tmp/RA001_Lab_Record.docx"
                               "/tmp/RA001_Lab_Record.docx" docx_media_type),
             built_files Sample.record None imgs ∅).
Proof.
  destruct (generate_docx_completes Sample.record ∅ None) as (imgs & _ & Hrun);
    [reflexivity | repeat constructor; by eexists |].
  by exists imgs.
Qed.

(** C1, on the sample record: the build completes and its table has two
    rows. *)
Lemma C1_experiment_table_shape_witness :
  ∃ resp fs',
    generate_docx Sample.record ∅ = (inr resp, fs') ∧
    ∃ doc tb details,
      saved_document fs' (output_filename Sample.record) = Some doc ∧
      tables doc = [tb; details] ∧
      length (rows tb) = length (experiments Sample.record) + 1 ∧
      Forall (λ row, length row = 6) (rows tb) ∧
      cell_text <$> default [] (head (rows tb))
      = ["Exp"; "Date"; "Name of The Experiment"; "QR Code"; "Mark"; "Signature"].
Proof.
  destruct sample_record_completes as [imgs Hrun].
  eexists _, _. split; [exact Hrun|].
  exact (C1_experiment_table_shape _ _ _ _ Hrun).
Defined.




(** C3 as stated fails on a body whose only experiment has an empty link:
    the body is accepted, the answer is the built file, not a validation
    failure, and the code cell of its row holds what the generator returned
    for the empty string. *)
Lemma C3_empty_link_is_built :
  ∃ fs' img doc tb row cell,
    (λ data, github <$> experiments data)
      <$> validate_RecordData Sample.empty_link_body = Some [""] ∧
    post_generate_docx Sample.empty_link_body ∅
    = (FileResponse "/tmp/RA001_Lab_Record.docx" "/tmp/RA001_Lab_Record.docx"
                    docx_media_type, fs') ∧
    status (post_generate_docx Sample.empty_link_body ∅).1 = 200 ∧
    create_qr_code "" 150 = inr img ∧
    saved_document fs' "/tmp/RA001_Lab_Record.docx" = Some doc ∧
    head (tables doc) = Some tb ∧
    rows tb !! 1 = Some row ∧
    row !! 3 = Some cell ∧
    cell_pictures cell = [ {| pic_image := img; pic_width := Inches 75 |} ].
Proof.
  set (exp := {| title := "Exp1"; date := ""; github := "" |}).
  set (data := {| course_title := "Intro to Systems"; student_name := "Jane Doe";
                  register_number := "RA001"; experiments := [exp] |}).
  destruct (generate_docx_completes data ∅ None) as (imgs & Himgs & Hrun);
    [reflexivity | repeat constructor; by eexists |].
  destruct (experiment_table_rows_lookup [exp] imgs 0 0 exp)
    as (img & Himg & Hrow); [by apply (encode_all_length [exp]) | done |].
  assert (post_generate_docx Sample.empty_link_body ∅
          = (FileResponse "/tmp/RA001_Lab_Record.docx" "/tmp/RA001_Lab_Record.docx"
                          docx_media_type, built_files data None imgs ∅)) as Hpost.
  { change (post_generate_docx Sample.empty_link_body ∅)
      with (respond (generate_docx data) ∅).
    exact (respond_generate_docx_ok _ _ _ _ Hrun). }
  exists (built_files data None imgs ∅), img, (document_of data None imgs),
         (experiment_table data imgs), (experiment_cells 0 exp img),
         (text_cell (Some CENTER) [new_run ""; picture_run img (Inches 75)]
                    (Inches 80)).
  split; [done|]. split; [exact Hpost|].
  split; [by rewrite Hpost|].
  split; [exact (encode_all_lookup [exp] imgs 0 exp img Himgs eq_refl Himg)|].
  split; [exact (built_files_saved data None imgs ∅)|].
  split; [done|]. split; [exact Hrow|]. by split.
Qed.

(** C3 (amended), on the body with the empty link. *)
Lemma C3_links_taken_as_they_come_witness :
  validate_RecordData Sample.empty_link_body
  = Some {| course_title := "Intro to Systems"; student_name := "Jane Doe";
            register_number := "RA001";
            experiments := [ {| title := "Exp1"; date := ""; github := "" |} ] |} ∧
  post_generate_docx Sample.empty_link_body ∅
  = respond (generate_docx
               {| course_title := "Intro to Systems"; student_name := "Jane Doe";
                  register_number := "RA001";
                  experiments := [ {| title := "Exp1"; date := ""; github := "" |} ] |})
            ∅.
Proof.
  split; [reflexivity|].
  exact (proj1 (C3_links_taken_as_they_come Sample.empty_link_body _ ∅ eq_refl)).
Defined.

(** C4, on the sample record: the first cell of row 1 reads 01. *)
Lemma C4_sequence_number_cell_witness :
  ∃ resp fs',
    generate_docx Sample.record ∅ = (inr resp, fs') ∧
    experiments Sample.record !! 0 = Some Sample.experiment ∧
    ∃ doc tb row cell,
      saved_document fs' (output_filename Sample.record) = Some doc ∧
      head (tables doc) = Some tb ∧
      rows tb !! 1 = Some row ∧
      row !! 0 = Some cell ∧
      cell_text cell = "01".
Proof.
  destruct sample_record_completes as [imgs Hrun].
  eexists _, _. split; [exact Hrun|]. split; [reflexivity|].
  destruct (C4_sequence_number_cell Sample.record ∅ _ _ 0 Sample.experiment
              Hrun eq_refl)
    as (doc & tb & row & cell & Hdoc & Htb & Hrow & Hcell & Htext & _).
  by exists doc, tb, row, cell.
Defined.

(** C5 as stated fails on records without experiments: a course title
    that holds a control character, a register number that names a
    directory which is not there, or a first logo file that is not an
    image each make the build answer 500, and no document is saved. *)
Lemma C5_empty_build_can_fail :
  (experiments Sample.control_title_record = [] ∧
   status (respond (generate_docx Sample.control_title_record) ∅).1 = 500 ∧
   (respond (generate_docx Sample.control_title_record) ∅).2 = ∅) ∧
  (experiments Sample.slash_record = [] ∧
   status (respond (generate_docx Sample.slash_record) ∅).1 = 500 ∧
   (respond (generate_docx Sample.slash_record) ∅).2 = ∅) ∧
  (experiments Sample.empty_record = [] ∧
   status (respond (generate_docx Sample.empty_record)
                   (<[logo_path "png" := OtherFile "not an image"]> ∅)).1 = 500 ∧
   (respond (generate_docx Sample.empty_record)
            (<[logo_path "png" := OtherFile "not an image"]> ∅)).2
   = <[logo_path "png" := OtherFile "not an image"]> ∅).
Proof.
  split; [|split].
  - unfold respond, generate_docx, try_except.
    by rewrite generate_docx_body_run.
  - unfold respond, generate_docx, try_except.
    by rewrite generate_docx_body_run.
  - unfold respond, generate_docx, try_except.
    rewrite generate_docx_body_run.
    by rewrite (find_logo_png _ (OtherFile "not an image") (lookup_insert_eq _ _ _)).
Qed.

(** C5 (amended), on the sample record without experiments and an empty
    disk. *)
Lemma C5_empty_experiments_witness :
  experiments Sample.empty_record = [] ∧
  find_logo logo_files (∅ : Files) = inr None ∧
  text_error (course_title Sample.empty_record) = None ∧
  text_error ("Name: " +:+ student_name Sample.empty_record) = None ∧
  text_error ("Register Number: " +:+ register_number Sample.empty_record) = None ∧
  save_error ("/tmp/" +:+ register_number Sample.empty_record +:+ "_Lab_Record.docx")
  = None ∧
  ∃ fs' doc tb details header,
    generate_docx Sample.empty_record ∅
    = (inr (FileResponse (output_filename Sample.empty_record)
                         (output_filename Sample.empty_record)
                         docx_media_type), fs') ∧
    saved_document fs' (output_filename Sample.empty_record) = Some doc ∧
    tables doc = [tb; details] ∧
    rows tb = [header] ∧
    cell_text <$> header
    = ["Exp"; "Date"; "Name of The Experiment"; "QR Code"; "Mark"; "Signature"].
Proof.
  split; [reflexivity|]. split; [reflexivity|]. split; [reflexivity|].
  split; [reflexivity|]. split; [reflexivity|]. split; [reflexivity|].
  exact (C5_empty_experiments Sample.empty_record ∅ None
           eq_refl eq_refl eq_refl eq_refl eq_refl eq_refl).
Defined.

(** C6 as stated fails on a body whose register number contains path
    separators: the body is accepted and the output path is formed from it
    and written. *)
Lemma C6_separator_reaches_the_path :
  ∃ data fs',
    validate_RecordData Sample.dotted_body = Some data ∧
    register_number data = "../tmp/RA001" ∧
    has_path_separator (register_number data) = true ∧
    post_generate_docx Sample.dotted_body ∅
    = (FileResponse "/tmp/../tmp/RA001_Lab_Record.docx"
                    "/tmp/../tmp/RA001_Lab_Record.docx" docx_media_type, fs') ∧
    is_Some (fs' !! "/tmp/../tmp/RA001_Lab_Record.docx").
Proof.
  set (data := {| course_title := "Intro to Systems"; student_name := "Jane Doe";
                  register_number := "../tmp/RA001"; experiments := [] |}).
  destruct (generate_docx_completes data ∅ None) as (imgs & Himgs & Hrun);
    [reflexivity | repeat constructor |].
  exists data, (built_files data None imgs ∅).
  split; [reflexivity|]. split; [reflexivity|]. split; [reflexivity|].
  split.
  - change (post_generate_docx Sample.dotted_body ∅)
      with (respond (generate_docx data) ∅).
    exact (respond_generate_docx_ok _ _ _ _ Hrun).
  - rewrite (saved_document_lookup _ _ _ (built_files_saved data None imgs ∅)).
    by eexists.
Qed.

(** C6 (amended), on the same body. *)
Lemma C6_register_number_verbatim_witness :
  ∃ data resp fs',
    validate_RecordData Sample.dotted_body = Some data ∧
    generate_docx data ∅ = (inr resp, fs') ∧
    body_register_number Sample.dotted_body = Some (register_number data) ∧
    resp = FileResponse ("/tmp/" +:+ register_number data +:+ "_Lab_Record.docx")
                        ("/tmp/" +:+ register_number data +:+ "_Lab_Record.docx")
                        docx_media_type.
Proof.
  set (data := {| course_title := "Intro to Systems"; student_name := "Jane Doe";
                  register_number := "../tmp/RA001"; experiments := [] |}).
  destruct (generate_docx_completes data ∅ None) as (imgs & Himgs & Hrun);
    [reflexivity | repeat constructor |].
  exists data. eexists _, _. split; [reflexivity|]. split; [exact Hrun|].
  destruct (C6_register_number_verbatim Sample.dotted_body data ∅ _ _ eq_refl Hrun)
    as (Hreg & Hresp & _).
  by split.
Defined.

(** C7. The build of the sample record answers with a download name that
    is the path of the output file under [/tmp], not the register number
    followed by [_Lab_Record.docx]: the name carries a directory. *)
Lemma C7_filename_is_the_path :
  ∃ fs',
    respond (generate_docx Sample.record) ∅
    = (FileResponse "/tmp/RA001_Lab_Record.docx" "/tmp/RA001_Lab_Record.docx"
                    docx_media_type, fs') ∧
    "/tmp/RA001_Lab_Record.docx"
    ≠ register_number Sample.record +:+ "_Lab_Record.docx" ∧
    has_path_separator "/tmp/RA001_Lab_Record.docx" = true.
Proof.
  destruct sample_record_completes as [imgs Hrun].
  eexists. split; [exact (respond_generate_docx_ok _ _ _ _ Hrun)|].
  by split.
Qed.

(** C8 as stated fails on the sample record: after the completed build the
    output document is still on disk. *)
Lemma C8_output_file_survives :
  ∃ resp fs',
    respond (generate_docx Sample.record) ∅ = (resp, fs') ∧
    status resp = 200 ∧
    is_Some (fs' !! "/tmp/RA001_Lab_Record.docx").
Proof.
  destruct sample_record_completes as [imgs Hrun].
  eexists _, _. split; [exact (respond_generate_docx_ok _ _ _ _ Hrun)|].
  split; [done|].
  rewrite (saved_document_lookup _ _ _ (built_files_saved Sample.record None imgs ∅)).
  by eexists.
Qed.

(** C8 (amended), on the sample record. *)
Lemma C8_staged_images_removed_witness :
  ∃ resp fs',
    generate_docx Sample.record ∅ = (inr resp, fs') ∧
    fs' !! qr_filename 0 = None ∧
    is_Some (saved_document fs' (output_filename Sample.record)).
Proof.
  destruct sample_record_completes as [imgs Hrun].
  eexists _, _. split; [exact Hrun|].
  destruct (C8_staged_images_removed Sample.record ∅ _ _ Hrun) as (Hqr & Hout).
  split; [apply Hqr; cbn; lia | exact Hout].
Defined.

(** C9, on two builds of the sample record: on an empty disk, and on a disk
    where an earlier request left a file behind. *)
Lemma C9_same_record_same_structure_witness :
  ∃ resp1 resp2 fs1' fs2',
    generate_docx Sample.record ∅ = (inr resp1, fs1') ∧
    generate_docx Sample.record {[ "/tmp/qr_0.png" := OtherFile "stale" ]}
    = (inr resp2, fs2') ∧
    logo_uploaded (∅ : Files)
    = logo_uploaded ({[ "/tmp/qr_0.png" := OtherFile "stale" ]} : Files) ∧
    ∃ doc1 doc2,
      saved_document fs1' (output_filename Sample.record) = Some doc1 ∧
      saved_document fs2' (output_filename Sample.record) = Some doc2 ∧
      strip_images doc1 = strip_images doc2 ∧
      resp1 = resp2.
Proof.
  destruct sample_record_completes as [imgs1 Hrun1].
  destruct (generate_docx_completes Sample.record
              {[ "/tmp/qr_0.png" := OtherFile "stale" ]} None)
    as (imgs2 & _ & Hrun2); [reflexivity | repeat constructor; by eexists |].
  eexists _, _, _, _. split; [exact Hrun1|]. split; [exact Hrun2|].
  split; [reflexivity|].
  destruct (C9_same_record_same_structure Sample.record _ _ _ _ _ _
              Hrun1 Hrun2 eq_refl)
    as (doc1 & doc2 & H1 & H2 & Hs & _ & Hr & _).
  by exists doc1, doc2.
Defined.

(** C10, on the upload of a text file. *)
Lemma C10_rejected_upload_answers_500_witness :
  (∃ ct, Some "text/plain" = Some ct ∧ PyStr.startswith "image/" ct = false) ∧
  status (post_upload_logo
            {| filename := Some "notes.txt"; content_type := Some "text/plain";
               file := OtherFile "hello" |} ∅).1 = 500.
Proof.
  assert (∃ ct, Some "text/plain" = Some ct ∧ PyStr.startswith "image/" ct = false)
    as Hct by (by eexists).
  split; [exact Hct|].
  destruct (C10_rejected_upload_answers_500
              {| filename := Some "notes.txt"; content_type := Some "text/plain";
                 file := OtherFile "hello" |} ∅ (or_introl Hct))
    as (e & _ & _ & Hstatus & _).
  exact Hstatus.
Defined.

(* ===================================================================== *)
(** ** Concrete runs of the further properties                            *)
(* ===================================================================== *)

(** X1, at a concrete input. *)
Lemma quiet_zone_white_witness :
  pixel_at (make_image 10 2 [[true; false]; [false; true]]) 3 25 = Some white.
Proof.
  apply (quiet_zone_white 10 2 [[true; false]; [false; true]] 3 25).
  - lia.
  - intros row Hrow. rewrite !elem_of_cons, elem_of_nil in Hrow.
    destruct Hrow as [->|[->|[]]]; cbn; lia.
  - cbn; lia.
  - cbn; lia.
  - left. lia.
Defined.

(** X2, at a concrete input. *)
Lemma set_cell_border_keywords_witness :
  set_cell_border [("top", 1%Z); ("bottom", 1%Z); ("left", 1%Z); ("right", 1%Z)]
                  new_cell
  = set_cell_border [("bottom", 1%Z); ("top", 1%Z); ("left", 1%Z); ("right", 1%Z)]
                    new_cell.
Proof.
  apply (set_cell_border_keywords
           [("top", 1%Z); ("bottom", 1%Z); ("left", 1%Z); ("right", 1%Z)]
           [("bottom", 1%Z); ("top", 1%Z); ("left", 1%Z); ("right", 1%Z)]).
  - apply (bool_decide_unpack _). reflexivity.
  - apply perm_swap.
Defined.

(** X11, at a concrete input. *)
Lemma header_cells_bordered_witness :
  ∃ resp fs' doc tb header rest,
    generate_docx Sample.record ∅ = (inr resp, fs') ∧
    saved_document fs' (output_filename Sample.record) = Some doc ∧
    head (tables doc) = Some tb ∧
    rows tb = header :: rest ∧
    Forall (λ cell, length (borders cell) = 4) header ∧
    Forall (λ row, Forall (λ cell, borders cell = []) row) rest.
Proof.
  destruct sample_record_completes as [imgs Hrun].
  destruct (header_cells_bordered Sample.record ∅ _ _ Hrun)
    as (doc & tb & header & rest & Hdoc & Htb & Hrows & Hhead & Hrest).
  eexists _, _, doc, tb, header, rest. split; [exact Hrun|].
  split; [done|]. split; [done|]. split; [done|]. split; [|done].
  eapply Forall_impl; [exact Hhead|]. by intros cell [-> _].
Defined.

(** X12, at a concrete input. *)
Lemma column_widths_fixed_witness :
  ∃ resp fs' doc tb,
    generate_docx Sample.record ∅ = (inr resp, fs') ∧
    saved_document fs' (output_filename Sample.record) = Some doc ∧
    head (tables doc) = Some tb ∧
    Forall (λ row, width <$> row
                   = [Some 457200; Some 731520; Some 2743200;
                      Some 731520; Some 548640; Some 914400]%Z) (rows tb).
Proof.
  destruct sample_record_completes as [imgs Hrun].
  destruct (column_widths_fixed Sample.record ∅ _ _ Hrun)
    as (doc & tb & Hdoc & Htb & Hw).
  by eexists _, _, doc, tb.
Defined.

(** X13, at a concrete input. *)
Lemma experiment_row_contents_witness :
  ∃ resp fs' doc tb row,
    generate_docx Sample.record ∅ = (inr resp, fs') ∧
    experiments Sample.record !! 0 = Some Sample.experiment ∧
    saved_document fs' (output_filename Sample.record) = Some doc ∧
    head (tables doc) = Some tb ∧
    rows tb !! 1 = Some row ∧
    tail (cell_text <$> row)
    = [ "2024-01-01";
        "Exp1" +:+ String "010" (String "010" "") +:+ "https://github.com/x/y";
        ""; ""; "" ].
Proof.
  destruct sample_record_completes as [imgs Hrun].
  destruct (experiment_row_contents Sample.record ∅ _ _ 0 Sample.experiment
              Hrun eq_refl)
    as (doc & tb & row & c & p & link & Hdoc & Htb & Hrow & Htexts & _).
  by eexists _, _, doc, tb, row.
Defined.

(** X14, at a concrete input. *)
Lemma footer_table_witness :
  ∃ resp fs' doc tb details,
    generate_docx Sample.record ∅ = (inr resp, fs') ∧
    saved_document fs' (output_filename Sample.record) = Some doc ∧
    tables doc = [tb; details] ∧
    (λ row : list Cell, cell_text <$> row) <$> rows details
    = [ [ "Name: Jane Doe"; "Register Number: RA001" ]; [ ""; "" ] ].
Proof.
  destruct sample_record_completes as [imgs Hrun].
  destruct (footer_table Sample.record ∅ _ _ Hrun)
    as (doc & tb & details & nc & rc & Hdoc & Htb & _ & _ & Htexts & _).
  by eexists _, _, doc, tb, details.
Defined.

(** X10, at a concrete input. *)
Lemma document_layout_witness :
  ∃ resp fs' doc tb details,
    generate_docx Sample.record ∅ = (inr resp, fs') ∧
    saved_document fs' (output_filename Sample.record) = Some doc ∧
    tables doc = [tb; details] ∧
    length (body doc) = 8 ∧
    body doc !! 2 = Some (BTable tb) ∧
    body doc !! 7 = Some (BTable details).
Proof.
  destruct sample_record_completes as [imgs Hrun].
  destruct (document_layout Sample.record ∅ _ _ Hrun)
    as (doc & logo & tb & details & Hdoc & Hlogo & _ & _ & Htb & _ & _ & _ & _ & _
        & Hbody).
  injection Hlogo as <-.
  eexists _, _, doc, tb, details. split; [exact Hrun|].
  split; [exact Hdoc|]. split; [exact Htb|]. by rewrite Hbody.
Defined.

(** X15, at a concrete input. *)
Lemma temporary_names_apart_witness :
  "college_logo.png" ∈ logo_files ∧
  qr_filename 0 ≠ output_filename Sample.record ∧
  PyStr.path_join base_dir "college_logo.png" ≠ qr_filename 0.
Proof.
  assert ("college_logo.png" ∈ logo_files) as Hname by (by left).
  split; [exact Hname|].
  destruct (temporary_names_apart Sample.record 0 1 "college_logo.png" Hname)
    as (_ & Hout & Hqr & _).
  by split.
Defined.

(** X17, at a concrete input. *)
Lemma build_idempotent_witness :
  ∃ resp fs',
    generate_docx Sample.record ∅ = (inr resp, fs') ∧
    generate_docx Sample.record fs' = (inr resp, fs').
Proof.
  destruct sample_record_completes as [imgs Hrun].
  eexists _, _. split; [exact Hrun|].
  exact (build_idempotent Sample.record ∅ _ _ Hrun).
Defined.

(** The upload of a picture under a JPG name is answered 200, and the
    sample record then builds. *)
Lemma jpg_upload_answered :
  ∃ fs', post_upload_logo jpg_upload ∅ = (uploaded_response, fs').
Proof.
  eexists. apply post_upload_logo_ok. rewrite upload_logo_body_run. reflexivity.
Qed.

Lemma jpg_upload_then_build :
  ∃ fs1 fs2 resp,
    post_upload_logo jpg_upload ∅ = (uploaded_response, fs1) ∧
    generate_docx Sample.record fs1 = (inr resp, fs2).
Proof.
  destruct jpg_upload_answered as [fs1 Hrun].
  destruct (upload_ok_inv jpg_upload ∅ fs1 _ Hrun eq_refl)
    as (ct & name & _ & _ & [= <-] & _ & _ & _ & Hjpg).
  destruct Hjpg as (img & _ & Hfs); [done|].
  assert (fs1 !! logo_path "png" = Some (ImageFile img)) as Hpng.
  { rewrite Hfs, lookup_delete_ne by (by intros ?%logo_path_inj).
    by rewrite lookup_insert_eq. }
  destruct (generate_docx_completes Sample.record fs1 (Some img))
    as (imgs & _ & Hbuild).
  - by rewrite (find_logo_png fs1 _ Hpng).
  - repeat constructor. by eexists.
  - by eexists fs1, _, _.
Qed.

(** X3, at a concrete input. *)
Lemma upload_answers_200_or_500_witness :
  filename jpg_upload = Some "Logo.JPG" ∧
  (status (post_upload_logo jpg_upload ∅).1 = 200
   ∨ status (post_upload_logo jpg_upload ∅).1 = 500) ∧
  status (post_upload_logo jpg_upload ∅).1 ≠ 400.
Proof.
  split; [reflexivity|].
  apply (upload_answers_200_or_500 jpg_upload ∅ "Logo.JPG"). reflexivity.
Defined.

(** X4, at a concrete input. *)
Lemma upload_normalised_to_png_witness :
  ∃ fs',
    post_upload_logo jpg_upload ∅ = (uploaded_response, fs') ∧
    status uploaded_response = 200 ∧
    fs' !! logo_path "png" = Some (ImageFile [[true; false]; [false; true]]) ∧
    fs' !! logo_path "jpg" = None.
Proof.
  destruct jpg_upload_answered as [fs' Hrun].
  exists fs'. split; [exact Hrun|]. split; [reflexivity|].
  destruct (upload_normalised_to_png jpg_upload ∅ fs' _ Hrun eq_refl)
    as (name & Hname & _ & _ & _ & Hjpg & _).
  injection Hname as <-.
  change (PyStr.lower (PyStr.split_last "." "Logo.JPG")) with "jpg" in Hjpg.
  destruct Hjpg as (img & Hfile & Hpng & Hgone); [discriminate|].
  injection Hfile as <-. by split.
Defined.

(** X7, at a concrete input. *)
Lemma uploaded_logo_opens_document_witness :
  ∃ fs1 fs2 resp doc p,
    post_upload_logo jpg_upload ∅ = (uploaded_response, fs1) ∧
    status uploaded_response = 200 ∧
    generate_docx Sample.record fs1 = (inr resp, fs2) ∧
    saved_document fs2 (output_filename Sample.record) = Some doc ∧
    head (body doc) = Some (BParagraph p) ∧
    omap run_picture (runs p)
    = [ {| pic_image := [[true; false]; [false; true]]; pic_width := 6400800 |} ].
Proof.
  destruct jpg_upload_then_build as (fs1 & fs2 & resp & Hrun & Hbuild).
  destruct (uploaded_logo_opens_document jpg_upload ∅ fs1 fs2 _ resp Sample.record
              Hrun eq_refl Hbuild)
    as (img & doc & rest & Hfile & _ & Hdoc & Hbody).
  injection Hfile as <-.
  eexists fs1, fs2, resp, doc, _. split; [exact Hrun|]. split; [reflexivity|].
  split; [exact Hbuild|]. split; [exact Hdoc|]. by rewrite Hbody.
Defined.

(** X8, at a concrete input. *)
Lemma missing_field_answers_422_witness :
  status (post_generate_docx
            {| body_course_title := None; body_student_name := Some "Jane Doe";
               body_register_number := Some "RA001";
               body_experiments := Some [] |} ∅).1 = 422.
Proof.
  destruct (missing_field_answers_422
              {| body_course_title := None; body_student_name := Some "Jane Doe";
                 body_register_number := Some "RA001";
                 body_experiments := Some [] |} ∅) as [H422 _].
  destruct (H422 (or_introl eq_refl)) as [Hstatus _]. exact Hstatus.
Defined.

(** X9, at a concrete input. *)
Lemma build_answered_200_only_if_witness :
  status (respond (generate_docx Sample.record) ∅).1 = 200 ∧
  save_error "/tmp/RA001_Lab_Record.docx" = None ∧
  status (respond (generate_docx Sample.slash_record) ∅).1 = 500.
Proof.
  destruct sample_record_completes as [imgs Hrun].
  assert (status (respond (generate_docx Sample.record) ∅).1 = 200) as Hok.
  { unfold respond. rewrite Hrun. reflexivity. }
  split; [exact Hok|]. split.
  - destruct (build_answered_200_only_if Sample.record ∅) as (_ & Honly).
    destruct (Honly Hok) as (_ & _ & _ & _ & _ & Hsave & _). exact Hsave.
  - destruct (build_answered_200_only_if Sample.slash_record ∅)
      as ([Hgood|Hbad] & Honly); [|exact Hbad].
    destruct (Honly Hgood) as (_ & _ & _ & _ & _ & Hsave & _). discriminate Hsave.
Defined.

(** X21, at a concrete input. *)
Lemma accepted_record_is_built_witness :
  ∃ fs' doc,
    respond (generate_docx Sample.record) ∅
    = (FileResponse "/tmp/RA001_Lab_Record.docx" "/tmp/RA001_Lab_Record.docx"
                    docx_media_type, fs') ∧
    saved_document fs' "/tmp/RA001_Lab_Record.docx" = Some doc ∧
    fs' !! qr_filename 0 = None.
Proof.
  destruct (accepted_record_is_built Sample.record ∅ None)
    as (fs' & doc & Hrun & Hdoc & _ & Hqr);
    [reflexivity | reflexivity | repeat constructor; by eexists
    | reflexivity | reflexivity | reflexivity |].
  exists fs', doc. split; [exact Hrun|]. split; [exact Hdoc|].
  apply Hqr. cbn. lia.
Defined.

(** X18, at a concrete input. *)
Lemma stopped_build_leaves_code_images_witness :
  ∃ fs' img,
    status (respond (generate_docx overlong_record) ∅).1 = 500 ∧
    (respond (generate_docx overlong_record) ∅).2 = fs' ∧
    fs' !! output_filename overlong_record = None ∧
    fs' !! qr_filename 0 = Some (ImageFile img).
Proof.
  destruct (stopped_build_leaves_code_images overlong_record ∅ None
              [Sample.experiment] []
              {| title := "Exp2"; date := ""; github := PyStr.zeros 3000 |}
              ValueError)
    as (fs' & Hresp & Hout & Hstaged & _).
  - reflexivity.
  - reflexivity.
  - reflexivity.
  - repeat constructor. by eexists.
  - reflexivity.
  - destruct (Hstaged 0 Sample.experiment eq_refl) as (img & _ & Himg).
    exists fs', img. rewrite Hresp. split; [done|]. split; [done|].
    split; [by rewrite Hout | exact Himg].
Defined.

(** X19, at a concrete input. *)
Lemma unsaved_build_leaves_code_images_witness :
  ∃ fs' img,
    status (respond (generate_docx unsaved_record) ∅).1 = 500 ∧
    (respond (generate_docx unsaved_record) ∅).2 = fs' ∧
    fs' !! output_filename unsaved_record = None ∧
    fs' !! qr_filename 0 = Some (ImageFile img).
Proof.
  destruct (unsaved_build_leaves_code_images unsaved_record ∅ None
              (FileNotFoundError "/tmp/a/b_Lab_Record.docx"))
    as (fs' & Hresp & Hout & Hstaged).
  - reflexivity.
  - reflexivity.
  - repeat constructor. by eexists.
  - reflexivity.
  - destruct (Hstaged 0 Sample.experiment eq_refl) as (img & _ & Himg).
    exists fs', img. rewrite Hresp. split; [done|]. split; [done|].
    split; [by rewrite Hout | exact Himg].
Defined.

(** X20, at a concrete input. *)
Lemma refused_title_stops_build_witness :
  find_logo logo_files (∅ : Files) = inr None ∧
  text_error (course_title Sample.control_title_record) = Some ValueError ∧
  status (respond (generate_docx Sample.control_title_record) ∅).1 = 500 ∧
  (respond (generate_docx Sample.control_title_record) ∅).2 = ∅.
Proof.
  split; [reflexivity|]. split; [reflexivity|].
  pose proof (refused_title_stops_build Sample.control_title_record ∅ None ValueError
                eq_refl eq_refl) as Hrun.
  by rewrite Hrun.
Defined.

(** X5, at a concrete input. *)
Lemma unreadable_png_breaks_builds_witness :
  status (post_upload_logo text_as_png ∅).1 = 200 ∧
  status (respond (generate_docx Sample.record)
                  (<[logo_path "png" := OtherFile "not an image"]> ∅)).1 = 500.
Proof.
  destruct (unreadable_png_breaks_builds text_as_png ∅ "image/png" "notes.png"
              Sample.record eq_refl eq_refl eq_refl eq_refl)
    as (_ & Hup & _ & Hbuild).
  { intros img. discriminate. }
  split; [exact Hup|]. change (file text_as_png) with (OtherFile "not an image") in Hbuild.
  by rewrite Hbuild.
Defined.


